(** * pyiceberg.io: location parsing, scheme resolution and backend selection

    A shallow embedding of [pyiceberg/io/interface.py] and
    [pyiceberg/io/__init__.py].

    Python [str] values are read as Rocq strings whose characters are the
    code points below 256.  Exceptions are values of [exn] carried by
    [result]; code with effects (warnings, the memo of [functools.cache],
    object identities) runs in the state-and-exception monad [M]. *)

From stdpp Require Import gmap strings list.
From Stdlib Require Import Ascii String.

Local Open Scope string_scope.

(** ** Exceptions and results *)

Inductive exn : Type :=
| TypeError (msg : string)
| ValueError (msg : string)
| AttributeError (msg : string)
| BackendError (msg : string).

Inductive result (A : Type) : Type :=
| Ok (a : A)
| Raise (e : exn).
Arguments Ok {A} a.
Arguments Raise {A} e.

Definition rbind {A B} (r : result A) (k : A -> result B) : result B :=
  match r with
  | Ok a => k a
  | Raise e => Raise e
  end.

#[global] Instance result_ret : MRet result := @Ok.
#[global] Instance result_bind : MBind result := fun A B k r => rbind r k.

(** ** The part of [str] the code relies on *)

Module Str.

Definition chr (n : nat) : ascii := ascii_of_nat n.
Definition ord (c : ascii) : nat := nat_of_ascii c.

(** [c in s] for a one-character [c]. *)
Fixpoint contains (c : ascii) (s : string) : bool :=
  match s with
  | EmptyString => false
  | String a s' => Ascii.eqb a c || contains c s'
  end.

Fixpoint all (p : ascii -> bool) (s : string) : bool :=
  match s with
  | EmptyString => true
  | String a s' => p a && all p s'
  end.

(** [s.startswith(p)]. *)
Fixpoint startswith (p s : string) : bool :=
  match p, s with
  | EmptyString, _ => true
  | String a p', String b s' => Ascii.eqb a b && startswith p' s'
  | String _ _, EmptyString => false
  end.

(** [s.endswith(c)] for a one-character [c]. *)
Fixpoint endswith (c : ascii) (s : string) : bool :=
  match s with
  | EmptyString => false
  | String a EmptyString => Ascii.eqb a c
  | String _ s' => endswith c s'
  end.

(** [s.lstrip(chars)], with [chars] given as a predicate. *)
Fixpoint lstrip (p : ascii -> bool) (s : string) : string :=
  match s with
  | EmptyString => EmptyString
  | String a s' => if p a then lstrip p s' else s
  end.

(** Removal of every character satisfying [p]: what a chain of
    [s.replace(b, "")] does for one-character [b]. *)
Fixpoint remove (p : ascii -> bool) (s : string) : string :=
  match s with
  | EmptyString => EmptyString
  | String a s' => if p a then remove p s' else String a (remove p s')
  end.

(** [span p s = (s[:i], s[i:])] where [i] is the index of the first
    character satisfying [p], or [len(s)] when there is none. *)
Fixpoint span (p : ascii -> bool) (s : string) : string * string :=
  match s with
  | EmptyString => (EmptyString, EmptyString)
  | String a s' =>
      if p a then (EmptyString, s)
      else let '(h, t) := span p s' in (String a h, t)
  end.

(** [split1 c s = Some (s[:i], s[i+1:])] with [i = s.find(c)], and [None]
    when [c] does not occur. *)
Fixpoint split1 (c : ascii) (s : string) : option (string * string) :=
  match s with
  | EmptyString => None
  | String a s' =>
      if Ascii.eqb a c then Some (EmptyString, s')
      else match split1 c s' with
           | Some (h, t) => Some (String a h, t)
           | None => None
           end
  end.

(** [rcut c s = Some (s[:i+1], s[i+1:])] with [i = s.rfind(c)], and [None]
    when [c] does not occur. *)
Fixpoint rcut (c : ascii) (s : string) : option (string * string) :=
  match s with
  | EmptyString => None
  | String a s' =>
      match rcut c s' with
      | Some (h, t) => Some (String a h, t)
      | None => if Ascii.eqb a c then Some (String a EmptyString, s') else None
      end
  end.

(** [s.split(c)]. *)
Fixpoint split (c : ascii) (s : string) : list string :=
  match s with
  | EmptyString => [EmptyString]
  | String a s' =>
      if Ascii.eqb a c then EmptyString :: split c s'
      else match split c s' with
           | w :: ws => String a w :: ws
           | [] => [String a EmptyString]
           end
  end.

(** [sep.join(ws)]. *)
Fixpoint join (sep : string) (ws : list string) : string :=
  match ws with
  | [] => EmptyString
  | [w] => w
  | w :: ws' => w +:+ sep +:+ join sep ws'
  end.

Definition is_upper (c : ascii) : bool :=
  (65 <=? ord c)%nat && (ord c <=? 90)%nat.
Definition is_lower (c : ascii) : bool :=
  (97 <=? ord c)%nat && (ord c <=? 122)%nat.
Definition is_digit (c : ascii) : bool :=
  (48 <=? ord c)%nat && (ord c <=? 57)%nat.

(** [c.isascii() and c.isalpha()]. *)
Definition is_ascii_alpha (c : ascii) : bool := is_upper c || is_lower c.

Definition lower_char (c : ascii) : ascii :=
  if is_upper c then chr (ord c + 32) else c.

(** [s.lower()] on the characters below 128; the callers apply it to
    scheme characters only. *)
Fixpoint lower (s : string) : string :=
  match s with
  | EmptyString => EmptyString
  | String a s' => String (lower_char a) (lower s')
  end.

(** Truth value of a string: [bool(s)]. *)
Definition truthy (s : string) : bool :=
  match s with EmptyString => false | String _ _ => true end.

Definition eqb (a b : string) : bool := bool_decide (a = b).

(** [x in xs] for a tuple or list of strings. *)
Definition mem (x : string) (xs : list string) : bool :=
  bool_decide (x ∈ xs).

End Str.

(** ** The interpreter's environment

    Two things the embedded code reads from outside the repository: the
    working directory that [os.path.abspath] prepends to a relative path,
    and the validation that [urllib.parse.urlsplit] applies, through the
    [ipaddress] module, to a netloc holding both brackets.  The latter
    differs between interpreter releases (those before 3.11.4 accept every
    such netloc) and is kept as a parameter: it returns normally or raises
    [ValueError]. *)

Class PyEnv : Type := {
  getcwd : string;
  check_bracketed_netloc : string -> result unit
}.

(** ** [urllib.parse] *)

Module Urllib.

Record SplitResult : Type := mkSplitResult {
  s_scheme : string;
  s_netloc : string;
  s_path : string;
  s_query : string;
  s_fragment : string
}.

Record ParseResult : Type := mkParseResult {
  scheme : string;
  netloc : string;
  path : string;
  params : string;
  query : string;
  fragment : string
}.

Definition uses_params : list string :=
  [""; "ftp"; "hdl"; "prospero"; "http"; "imap"; "https"; "shttp"; "rtsp";
   "rtspu"; "sip"; "sips"; "mms"; "sftp"; "tel"].

(** [c in scheme_chars]. *)
Definition scheme_char (c : ascii) : bool :=
  Str.is_lower c || Str.is_upper c || Str.is_digit c
  || Str.contains c "+-.".

(** [c in _WHATWG_C0_CONTROL_OR_SPACE]. *)
Definition c0_control_or_space (c : ascii) : bool := (Str.ord c <=? 32)%nat.

(** [c in _UNSAFE_URL_BYTES_TO_REMOVE]: tab, carriage return, newline. *)
Definition unsafe_url_byte (c : ascii) : bool :=
  (Str.ord c =? 9)%nat || (Str.ord c =? 13)%nat || (Str.ord c =? 10)%nat.

(** The scheme-detection step of [urlsplit]: with [i = url.find(':')], a
    scheme is recognised when [i > 0], [url[0]] is an ASCII letter and all
    of [url[:i]] are scheme characters; the result is the pair of the
    (lower-cased) scheme and the rest of the url. *)
Definition split_scheme (url : string) : string * string :=
  match Str.split1 ":" url with
  | Some (String c0 pre, rest) =>
      if Str.is_ascii_alpha c0 && Str.all scheme_char (String c0 pre)
      then (Str.lower (String c0 pre), rest)
      else ("", url)
  | _ => ("", url)
  end.

(** [_splitnetloc(url, 2)] for a [url] that starts with two slashes,
    given the text after them. *)
Definition splitnetloc (after : string) : string * string :=
  Str.span (fun c => Str.contains c "/?#") after.

Definition check_brackets `{PyEnv} (nl : string) : result unit :=
  let has_open := Str.contains "[" nl in
  let has_close := Str.contains "]" nl in
  if (has_open && negb has_close) || (has_close && negb has_open)
  then Raise (ValueError "Invalid IPv6 URL")
  else if has_open && has_close then check_bracketed_netloc nl
       else Ok tt.

(** The authority step of [urlsplit]: taken when [url[:2] == '//']. *)
Definition split_authority `{PyEnv} (url : string) : result (string * string) :=
  match url with
  | String "/" (String "/" after) =>
      let '(nl, rest) := splitnetloc after in
      check_brackets nl;;
      Ok (nl, rest)
  | _ => Ok ("", url)
  end.

(** [url.split(c, 1)] when [c in url], and [(url, '')] otherwise. *)
Definition cut (c : ascii) (url : string) : string * string :=
  match Str.split1 c url with
  | Some (u, v) => (u, v)
  | None => (url, "")
  end.

(** [urlsplit(url)] with the default [scheme=''] and
    [allow_fragments=True], as in CPython 3.11.4 and later: leading C0
    controls and spaces are stripped and tabs and line breaks removed
    before anything else.  [_checknetloc] is left out: it raises only when
    NFKC normalisation of the netloc produces one of [/?#@:], which no code
    point below 256 does. *)
Definition urlsplit `{PyEnv} (url : string) : result SplitResult :=
  let url := Str.lstrip c0_control_or_space url in
  let url := Str.remove unsafe_url_byte url in
  let '(sch, url) := split_scheme url in
  '(nl, url) ← split_authority url;
  let '(url, frag) := cut "#" url in
  let '(url, qry) := cut "?" url in
  Ok (mkSplitResult sch nl url qry frag).

(** [_splitparams(url)], called when [';' in url]. *)
Definition splitparams (url : string) : string * string :=
  match Str.rcut "/" url with
  | Some (dir, base) =>
      match Str.split1 ";" base with
      | Some (b, p) => (dir +:+ b, p)
      | None => (url, "")
      end
  | None =>
      match Str.split1 ";" url with
      | Some (b, p) => (b, p)
      | None => (url, "")
      end
  end.

Definition urlparse `{PyEnv} (url : string) : result ParseResult :=
  r ← urlsplit url;
   let '(url, prm) :=
     if Str.mem (s_scheme r) uses_params && Str.contains ";" (s_path r)
     then splitparams (s_path r)
     else (s_path r, "") in
   Ok (mkParseResult (s_scheme r) (s_netloc r) url prm
         (s_query r) (s_fragment r)).

End Urllib.

(** ** [posixpath] *)

Module Posixpath.

(** The two kinds of object that reach [os.path.abspath] in this code. *)
Inductive pyobj : Type :=
| PyStr (s : string)
| PyParseResult (r : Urllib.ParseResult).

(** [os.fspath]: a [str] is returned as it is; a [ParseResult] is a named
    tuple without [__fspath__], which is a [TypeError]. *)
Definition fspath (p : pyobj) : result string :=
  match p with
  | PyStr s => Ok s
  | PyParseResult _ =>
      Raise (TypeError
               "expected str, bytes or os.PathLike object, not ParseResult")
  end.

(** [join(a, b)] for a [b] that does not start with a slash. *)
Definition join (a b : string) : string :=
  if negb (Str.truthy a) || Str.endswith "/" a then a +:+ b
  else a +:+ "/" +:+ b.

(** One round of the loop of [normpath]; [new_comps] is kept with its last
    element first. *)
Definition normpath_step (initial_slashes : nat)
    (new_comps : list string) (comp : string) : list string :=
  if Str.mem comp [""; "."] then new_comps
  else if negb (Str.eqb comp "..")
          || (Nat.eqb initial_slashes 0 && bool_decide (new_comps = []))
          || match new_comps with
             | last :: _ => Str.eqb last ".."
             | [] => false
             end
       then comp :: new_comps
       else match new_comps with
            | _ :: rest => rest
            | [] => []
            end.

Fixpoint slashes (n : nat) : string :=
  match n with O => "" | S n' => String "/" (slashes n') end.

Definition normpath (path : string) : string :=
  if negb (Str.truthy path) then "."
  else
    let initial_slashes :=
      if Str.startswith "/" path
      then if Str.startswith "//" path && negb (Str.startswith "///" path)
           then 2 else 1
      else 0 in
    let comps := Str.split "/" path in
    let new_comps := foldl (normpath_step initial_slashes) [] comps in
    let path := Str.join "/" (rev new_comps) in
    let path := slashes initial_slashes +:+ path in
    if Str.truthy path then path else ".".

Definition abspath `{PyEnv} (path : pyobj) : result string :=
  path ← fspath path;
  let path := if Str.startswith "/" path then path else join getcwd path in
  Ok (normpath path).

End Posixpath.

(** * [pyiceberg/io/interface.py] *)

(** ** [parse_location]

    The first statement rebinds the name [uri] to the [ParseResult], so the
    object handed to [os.path.abspath] in the first branch is that
    [ParseResult] and not the string the caller passed. *)
Definition parse_location `{PyEnv} (uri : string)
    : result (string * string * string) :=
  uri ← Urllib.urlparse uri;
  if negb (Str.truthy (Urllib.scheme uri)) then
    abs ← Posixpath.abspath (Posixpath.PyParseResult uri);
    Ok ("file", Urllib.netloc uri, abs)
  else if Str.mem (Urllib.scheme uri) ["hdfs"; "viewfs"] then
    Ok (Urllib.scheme uri, Urllib.netloc uri, Urllib.path uri)
  else
    Ok (Urllib.scheme uri, Urllib.netloc uri,
        Urllib.netloc uri +:+ Urllib.path uri).

(** The location parser as the specification words it (section 4.1): a
    location without a scheme yields the local-file scheme, an empty
    authority and the absolute path of the input string. *)
Definition parse_location_spec `{PyEnv} (uri : string)
    : result (string * string * string) :=
  r ← Urllib.urlparse uri;
  if negb (Str.truthy (Urllib.scheme r)) then
    abs ← Posixpath.abspath (Posixpath.PyStr uri);
    Ok ("file", "", abs)
  else if Str.mem (Urllib.scheme r) ["hdfs"; "viewfs"] then
    Ok (Urllib.scheme r, Urllib.netloc r, Urllib.path r)
  else
    Ok (Urllib.scheme r, Urllib.netloc r,
        Urllib.netloc r +:+ Urllib.path r).

(** ** Effects: warnings, object identities and the memo of [@cache] *)

(** What [fs_by_scheme] hands back: [None] for a scheme the backend does
    not serve, the [NotImplemented] singleton of the abstract body, or a
    reference to a filesystem client object. *)
Inductive filesystem : Type :=
| PyNone
| NotImplemented
| Client (ref : nat).

#[global] Instance filesystem_eq_dec : EqDecision filesystem.
Proof. solve_decision. Defined.

Record state : Type := mkState {
  (** the messages passed to [warnings.warn], oldest first *)
  warnings : list string;
  (** the identity the next constructed object receives *)
  next_id : nat;
  (** the dictionary kept by [functools.cache], keyed by the positional
      arguments [(self, scheme)] of a call, [self] by identity *)
  memo : gmap (nat * string) filesystem
}.

Definition M (A : Type) : Type := state -> result A * state.

#[global] Instance M_ret : MRet M := fun A a s => (Ok a, s).
#[global] Instance M_bind : MBind M := fun A B k m s =>
  match m s with
  | (Ok a, s') => k a s'
  | (Raise e, s') => (Raise e, s')
  end.

Definition raise {A} (e : exn) : M A := fun s => (Raise e, s).

Definition lift {A} (r : result A) : M A := fun s => (r, s).

(** [warnings.warn(msg)]: every call is recorded, whatever the warning
    filters later show of it; no filter turns warnings into errors. *)
Definition warn (msg : string) : M unit := fun s =>
  (Ok tt, mkState (warnings s ++ [msg]) (next_id s) (memo s)).

(** Allocation of a fresh object identity. *)
Definition fresh : M nat := fun s =>
  (Ok (next_id s), mkState (warnings s) (S (next_id s)) (memo s)).

(** ** [FileIO] *)

(** What a method sees of its receiver: its identity and the property bag
    stored by [FileIO.__init__]. *)
Record self_ref : Type := mkSelf {
  self_id : nat;
  properties : gmap string string
}.

(** A concrete subclass of [FileIO], seen through the two attributes that
    [fs_by_uri] looks up on the instance.  [FileIO] declares no [parse_uri];
    [cls_parse_uri] is [None] unless the subclass brings its own.
    [cls_fs_by_scheme] is the override of the abstract [fs_by_scheme]. *)
Record FileIOClass : Type := mkClass {
  cls_name : string;
  cls_parse_uri :
    option (self_ref -> string -> M (string * string * string));
  cls_fs_by_scheme : self_ref -> string -> M filesystem
}.

Record FileIO : Type := mkFileIO {
  class_of : FileIOClass;
  self : self_ref
}.

(** [cls(properties)]: a new object whose [__init__] is [FileIO.__init__]. *)
Definition new (cls : FileIOClass) (props : gmap string string) : M FileIO :=
  id ← fresh;
  mret (mkFileIO cls (mkSelf id props)).

(** [functools.cache] around a method body: a hit returns the stored
    object without running the body; a miss runs it and stores what it
    returns; nothing is stored when the body raises.  The state holds one
    dictionary, keyed by the positional call [(self, scheme)] that
    [fs_by_uri] makes.  CPython keeps a dictionary for each decorated
    function: the model is exact as long as one decorated function
    answers for an instance. *)
Definition cache (body : self_ref -> string -> M filesystem)
    (self : self_ref) (scheme : string) : M filesystem := fun s =>
  match memo s !! (self_id self, scheme) with
  | Some fs => (Ok fs, s)
  | None =>
      match body self scheme s with
      | (Ok fs, s') =>
          (Ok fs,
           mkState (warnings s') (next_id s')
             (<[(self_id self, scheme) := fs]> (memo s')))
      | (Raise e, s') => (Raise e, s')
      end
  end.

(** [FileIO.fs_by_scheme] as the base class defines it: abstract, cached,
    with a body that returns [NotImplemented]. *)
Definition FileIO_fs_by_scheme : self_ref -> string -> M filesystem :=
  cache (fun _ _ => mret NotImplemented).

(** [file_io.fs_by_scheme(scheme)]: dispatch to the override of the
    instance's class. *)
Definition fs_by_scheme (file_io : FileIO) (scheme : string) : M filesystem :=
  cls_fs_by_scheme (class_of file_io) (self file_io) scheme.

(** [FileIO.fs_by_uri]: [scheme = self.parse_uri(uri)[0]], then
    [self.fs_by_scheme(scheme)]. *)
Definition fs_by_uri (file_io : FileIO) (uri : string) : M filesystem :=
  match cls_parse_uri (class_of file_io) with
  | None =>
      raise (AttributeError
               ("'" +:+ cls_name (class_of file_io)
                +:+ "' object has no attribute 'parse_uri'"))
  | Some parse_uri =>
      '(scheme, _, _) ← parse_uri (self file_io) uri;
      fs_by_scheme file_io scheme
  end.

(** Modelled from the spec: the backends' overrides of [fs_by_scheme] are
    not part of the sources at hand.  Section 4.2 has [resolve_scheme]
    return "a backend-specific client for the scheme, memoized so repeated
    resolution of the same scheme returns the same client instance for the
    lifetime of the FileIO instance": the override keeps the [@cache]
    decorator of the contract around the backend's own resolver. *)
Definition backend_fs_by_scheme
    (resolve : self_ref -> string -> M filesystem)
    : self_ref -> string -> M filesystem :=
  cache resolve.

(** A method body that leaves the memo of [@cache] alone, as every body
    does that neither clears the cache nor calls the cached method. *)
Definition memo_preserving (body : self_ref -> string -> M filesystem) : Prop :=
  forall self scheme s r s', body self scheme s = (r, s') -> memo s' = memo s.

(** * [pyiceberg/io/__init__.py] *)

Definition FSSPEC : string := "fsspec".
Definition PYARROW : string := "pyarrow".
Definition ARROW_FILE_IO : string := "pyiceberg.io.pyarrow.PyArrowFileIO".
Definition FSSPEC_FILE_IO : string := "pyiceberg.io.fsspec.FsspecFileIO".
Definition PY_IO_IMPL : string := "py-io-impl".
Definition DEFAULT_PY_IO_IMPL : string := PYARROW.

Definition fsspec_deprecation : string :=
  "The 'py-io-impl' value 'pyiceberg.io.fsspec.FsspecFileIO' is being deprecated. "
  +:+ "Please use 'fsspec' instead.".

Definition pyarrow_deprecation : string :=
  "The 'py-io-impl' value 'pyiceberg.io.pyarrow.PyArrowFileIO' is being deprecated. "
  +:+ "Please use 'pyarrow' instead.".

Definition unknown_value (py_io_impl : string) : exn :=
  ValueError
    ("Unknown value '" +:+ py_io_impl +:+ "' for " +:+ PY_IO_IMPL
     +:+ ". Accepts only: 'fsspec', 'pyarrow', or the "
     +:+ "deprecating params: 'pyiceberg.io.fsspec.FsspecFileIO', 'pyiceberg.io.pyarrow.PyArrowFileIO'").

(** The last branch builds the [ValueError] as an expression statement and
    drops it: there is no [raise], control falls off the end of the
    function and the call returns [None]. *)
Definition _py_io_impl_argument_parser (py_io_impl : string)
    : M (option string) :=
  if Str.mem py_io_impl [FSSPEC; PYARROW] then
    mret (Some py_io_impl)
  else if Str.eqb py_io_impl FSSPEC_FILE_IO then
    warn fsspec_deprecation;;
    mret (Some FSSPEC)
  else if Str.eqb py_io_impl ARROW_FILE_IO then
    warn pyarrow_deprecation;;
    mret (Some PYARROW)
  else
    let _ := unknown_value py_io_impl in
    mret None.

(** The two backend classes, [pyiceberg.io.pyarrow.PyArrowFileIO] and
    [pyiceberg.io.fsspec.FsspecFileIO], are opaque providers of the
    [FileIO] contract and parameters of the selector.  The imports inside
    [load_file_io] have no effect of their own here: [interface.py] already
    imports both libraries when the package is loaded. *)
Class Backends : Type := {
  PyArrowFileIO : FileIOClass;
  FsspecFileIO : FileIOClass
}.

(** [f"{location}"] for the optional [location]. *)
Definition fmt (location : option string) : string :=
  match location with
  | Some l => l
  | None => "None"
  end.

Definition pyarrow_fallback (location : option string) : string :=
  "Uri scheme " +:+ fmt location +:+ " is not supported by PyArrowFileIO. "
  +:+ "Attempts to load by FsspecFileIO instead.".

Definition fsspec_fallback (location : option string) : string :=
  "Uri scheme " +:+ fmt location +:+ " is not supported by FsspecFileIO. "
  +:+ "Attempts to load by PyArrowFileIO instead.".

(** The test [location and file_io.fs_by_uri(location) is None]: [and]
    stops at a falsy [location] ([None] or the empty string) without
    calling [fs_by_uri]. *)
Definition location_and_unsupported (location : option string)
    (file_io : FileIO) : M bool :=
  match location with
  | Some (String _ _ as location) =>
      fs ← fs_by_uri file_io location;
      mret (bool_decide (fs = PyNone))
  | _ => mret false
  end.

Definition load_file_io `{Backends} (props : gmap string string)
    (location : option string) : M FileIO :=
  let py_io_impl := default DEFAULT_PY_IO_IMPL (props !! PY_IO_IMPL) in
  py_io_impl ← _py_io_impl_argument_parser py_io_impl;
  if bool_decide (py_io_impl = Some PYARROW) then
    file_io ← new PyArrowFileIO props;
    unsupported ← location_and_unsupported location file_io;
    if (unsupported : bool) then
      warn (pyarrow_fallback location);;
      new FsspecFileIO props
    else mret file_io
  else
    file_io ← new FsspecFileIO props;
    unsupported ← location_and_unsupported location file_io;
    if (unsupported : bool) then
      warn (fsspec_fallback location);;
      new PyArrowFileIO props
    else mret file_io.

(** * Concrete interpreters, backends and states used in the examples *)

(** A POSIX interpreter started in [/home/iceberg].  Its bracket
    validation accepts every netloc; the examples below use no location
    with a bracketed authority. *)
Definition posix_env : PyEnv :=
  {| getcwd := "/home/iceberg"; check_bracketed_netloc := fun _ => Ok tt |}.

(** A resolver that builds a new client object for each scheme of
    [supported] and answers [None] for every other scheme. *)
Definition resolver (supported : list string)
    : self_ref -> string -> M filesystem := fun _ scheme =>
  if Str.mem scheme supported then
    ref ← fresh;
    mret (Client ref)
  else mret PyNone.

(** A subclass that implements the abstract methods of [FileIO] and
    nothing more. *)
Definition plain_backend (name : string) (supported : list string)
    : FileIOClass :=
  mkClass name None (backend_fs_by_scheme (resolver supported)).

(** A subclass that also brings a [parse_uri] method, which forwards to
    [parse_location]. *)
Definition parsing_backend `{PyEnv} (name : string) (supported : list string)
    : FileIOClass :=
  mkClass name (Some (fun _ uri => lift (parse_location uri)))
    (backend_fs_by_scheme (resolver supported)).

Definition plain_backends : Backends :=
  {| PyArrowFileIO := plain_backend "PyArrowFileIO" ["file"; "s3"; "hdfs"];
     FsspecFileIO := plain_backend "FsspecFileIO" ["file"; "s3"; "abfs"] |}.

Definition parsing_backends : Backends :=
  {| PyArrowFileIO :=
       @parsing_backend posix_env "PyArrowFileIO" ["file"; "s3"; "hdfs"];
     FsspecFileIO :=
       @parsing_backend posix_env "FsspecFileIO" ["file"; "s3"; "abfs"] |}.

Definition initial_state : state := mkState [] 0 ∅.

(** An instance of a class without [parse_uri]. *)
Definition plain_file_io : FileIO :=
  mkFileIO (plain_backend "PyArrowFileIO" ["file"; "s3"; "hdfs"]) (mkSelf 0 ∅).

(** A property bag that selects the pyarrow backend by its old name. *)
Definition deprecated_props : gmap string string :=
  {[ PY_IO_IMPL := ARROW_FILE_IO ]}.

(** The branch of [load_file_io] taken for a parsed identifier, and the
    class each branch falls back to. *)
Definition primary `{Backends} (py_io_impl : option string) : FileIOClass :=
  if bool_decide (py_io_impl = Some PYARROW) then PyArrowFileIO
  else FsspecFileIO.

Definition alternate `{Backends} (py_io_impl : option string) : FileIOClass :=
  if bool_decide (py_io_impl = Some PYARROW) then FsspecFileIO
  else PyArrowFileIO.

Definition fallback_warning (py_io_impl : option string)
    (location : option string) : string :=
  if bool_decide (py_io_impl = Some PYARROW) then pyarrow_fallback location
  else fsspec_fallback location.

(** The warnings [_py_io_impl_argument_parser] emits for a property bag. *)
Definition deprecation_warnings (props : gmap string string) : list string :=
  match props !! PY_IO_IMPL with
  | Some v =>
      if bool_decide (v = FSSPEC_FILE_IO) then [fsspec_deprecation]
      else if bool_decide (v = ARROW_FILE_IO) then [pyarrow_deprecation]
      else []
  | None => []
  end.

(** * Properties of [urlparse] *)

Section Urlparse.
Context `{PyEnv}.

Lemma split1_app (c : ascii) (pre rest : string) :
  Str.contains c pre = false ->
  Str.split1 c (pre +:+ String c rest) = Some (pre, rest).
Proof.
  induction pre as [| a pre IH]; simpl.
  - intros _. rewrite Ascii.eqb_refl. reflexivity.
  - intros Hc. apply orb_false_iff in Hc as [Ha Hpre].
    rewrite Ha, (IH Hpre). reflexivity.
Qed.

Lemma remove_app (p : ascii -> bool) (a b : string) :
  Str.remove p (a +:+ b) = Str.remove p a +:+ Str.remove p b.
Proof.
  induction a as [| c a IH]; simpl; [reflexivity |].
  destruct (p c); simpl; rewrite IH; reflexivity.
Qed.

Lemma remove_none (p : ascii -> bool) (a : string) :
  Str.all (fun c => negb (p c)) a = true -> Str.remove p a = a.
Proof.
  induction a as [| c a IH]; simpl; [reflexivity |].
  intros Hall. apply andb_true_iff in Hall as [Hc Ha].
  apply negb_true_iff in Hc. rewrite Hc, (IH Ha). reflexivity.
Qed.

Lemma all_impl (p q : ascii -> bool) (a : string) :
  (forall c, p c = true -> q c = true) ->
  Str.all p a = true -> Str.all q a = true.
Proof.
  intros Hpq. induction a as [| c a IH]; simpl; [reflexivity |].
  intros Hall. apply andb_true_iff in Hall as [Hc Ha].
  rewrite (Hpq _ Hc), (IH Ha). reflexivity.
Qed.

Lemma all_not_contains (p : ascii -> bool) (c : ascii) (a : string) :
  p c = false -> Str.all p a = true -> Str.contains c a = false.
Proof.
  intros Hc. induction a as [| b a IH]; simpl; [reflexivity |].
  intros Hall. apply andb_true_iff in Hall as [Hb Ha].
  rewrite (IH Ha), orb_false_r.
  destruct (Ascii.eqb_spec b c) as [-> |]; congruence.
Qed.

(** A scheme character is neither stripped nor removed by [urlsplit]. *)
Lemma scheme_char_kept (c : ascii) :
  Urllib.scheme_char c = true ->
  Urllib.unsafe_url_byte c = false /\ Urllib.c0_control_or_space c = false.
Proof.
  destruct c as [[] [] [] [] [] [] [] []]; vm_compute; intros Hc;
    first [discriminate Hc | split; reflexivity].
Qed.

(** The scheme step on [<scheme>:<rest>]. *)
Lemma split_scheme_explicit (c0 : ascii) (pre rest : string) :
  Str.is_ascii_alpha c0 = true ->
  Str.all Urllib.scheme_char (String c0 pre) = true ->
  Urllib.split_scheme (String c0 pre +:+ String ":" rest)
  = (Str.lower (String c0 pre), rest).
Proof.
  intros Halpha Hall. unfold Urllib.split_scheme.
  rewrite split1_app.
  - rewrite Halpha, Hall. reflexivity.
  - apply (all_not_contains Urllib.scheme_char); [reflexivity | exact Hall].
Qed.

(** The scheme reported by [urlsplit] is the one its scheme step finds. *)
Lemma urlsplit_scheme (url : string) (r : Urllib.SplitResult) :
  Urllib.urlsplit url = Ok r ->
  Urllib.s_scheme r =
  (Urllib.split_scheme
     (Str.remove Urllib.unsafe_url_byte
        (Str.lstrip Urllib.c0_control_or_space url))).1.
Proof.
  unfold Urllib.urlsplit.
  destruct (Urllib.split_scheme _) as [sch u]. simpl.
  unfold mbind, result_bind, rbind.
  destruct (Urllib.split_authority u) as [[nl u'] | e]; [| discriminate].
  destruct (Urllib.cut "#" u') as [u1 frag].
  destruct (Urllib.cut "?" u1) as [u2 qry].
  intros [= <-]. reflexivity.
Qed.

Lemma urlparse_urlsplit (url : string) (r : Urllib.ParseResult) :
  Urllib.urlparse url = Ok r ->
  exists sr, Urllib.urlsplit url = Ok sr
             /\ Urllib.scheme r = Urllib.s_scheme sr
             /\ Urllib.netloc r = Urllib.s_netloc sr.
Proof.
  unfold Urllib.urlparse, mbind, result_bind, rbind.
  destruct (Urllib.urlsplit url) as [sr | e]; [| discriminate].
  intros Hr. exists sr. split; [reflexivity |].
  destruct (_ && _); [destruct (Urllib.splitparams _) |];
    injection Hr as <-; split; reflexivity.
Qed.

(** A location written [<scheme>:<rest>] has that scheme, in lower case,
    whenever [urlparse] accepts it. *)
Lemma urlparse_explicit_scheme (c0 : ascii) (pre rest : string)
    (r : Urllib.ParseResult) :
  Str.is_ascii_alpha c0 = true ->
  Str.all Urllib.scheme_char (String c0 pre) = true ->
  Urllib.urlparse (String c0 pre +:+ String ":" rest) = Ok r ->
  Urllib.scheme r = Str.lower (String c0 pre).
Proof.
  intros Halpha Hall Hp.
  destruct (urlparse_urlsplit _ _ Hp) as (sr & Hs & -> & _).
  rewrite (urlsplit_scheme _ _ Hs).
  assert (Hc0 : Urllib.scheme_char c0 = true).
  { simpl in Hall. apply andb_true_iff in Hall as [Hc0 _]. exact Hc0. }
  change (String c0 pre +:+ String ":" rest)
    with (String c0 (pre +:+ String ":" rest)).
  cbn [Str.lstrip]. rewrite (proj2 (scheme_char_kept c0 Hc0)).
  change (String c0 (pre +:+ String ":" rest))
    with (String c0 pre +:+ String ":" rest).
  rewrite remove_app, remove_none.
  - cbn [Str.remove]. change (Urllib.unsafe_url_byte ":") with false.
    cbn iota. rewrite split_scheme_explicit by assumption. reflexivity.
  - revert Hall. apply all_impl. intros c Hc.
    rewrite (proj1 (scheme_char_kept c Hc)). reflexivity.
Qed.

(** No scheme is found when the first character is not a letter. *)
Lemma split_scheme_not_alpha (c0 : ascii) (url : string) :
  Str.is_ascii_alpha c0 = false ->
  Urllib.split_scheme (String c0 url) = ("", String c0 url).
Proof.
  intros Halpha. unfold Urllib.split_scheme. cbn [Str.split1].
  destruct (Ascii.eqb c0 ":"); [reflexivity |].
  destruct (Str.split1 ":" url) as [[h t] |]; [| reflexivity].
  rewrite Halpha. reflexivity.
Qed.

(** A location that starts with a slash has no scheme. *)
Lemma urlparse_slash_no_scheme (rest : string) (r : Urllib.ParseResult) :
  Urllib.urlparse (String "/" rest) = Ok r -> Urllib.scheme r = "".
Proof.
  intros Hp.
  destruct (urlparse_urlsplit _ _ Hp) as (sr & Hs & -> & _).
  rewrite (urlsplit_scheme _ _ Hs).
  assert (Hstrip : Str.lstrip Urllib.c0_control_or_space (String "/" rest)
                   = String "/" rest) by reflexivity.
  assert (Hrem : Str.remove Urllib.unsafe_url_byte (String "/" rest)
                 = String "/" (Str.remove Urllib.unsafe_url_byte rest))
    by reflexivity.
  rewrite Hstrip, Hrem, split_scheme_not_alpha by reflexivity.
  reflexivity.
Qed.

End Urlparse.

(** * Properties of the location parser *)

Section ParseLocation.
Context `{PyEnv}.

Lemma truthy_false (s : string) : Str.truthy s = false <-> s = "".
Proof. destruct s; simpl; split; congruence. Qed.

Lemma truthy_true (s : string) : Str.truthy s = true <-> s ≠ "".
Proof. destruct s; simpl; split; congruence. Qed.

Lemma mem_true (x : string) (xs : list string) : Str.mem x xs = true <-> x ∈ xs.
Proof. unfold Str.mem. apply bool_decide_eq_true. Qed.

Lemma mem_false (x : string) (xs : list string) : Str.mem x xs = false <-> x ∉ xs.
Proof. unfold Str.mem. apply bool_decide_eq_false. Qed.

(** How [parse_location] continues once [urlparse] has returned. *)
Lemma parse_location_after_urlparse (uri : string) (r : Urllib.ParseResult) :
  Urllib.urlparse uri = Ok r ->
  parse_location uri =
    if negb (Str.truthy (Urllib.scheme r)) then
      abs ← Posixpath.abspath (Posixpath.PyParseResult r);
      Ok ("file", Urllib.netloc r, abs)
    else if Str.mem (Urllib.scheme r) ["hdfs"; "viewfs"] then
      Ok (Urllib.scheme r, Urllib.netloc r, Urllib.path r)
    else
      Ok (Urllib.scheme r, Urllib.netloc r,
          Urllib.netloc r +:+ Urllib.path r).
Proof. intros Hp. unfold parse_location. rewrite Hp. reflexivity. Qed.

(** An exception of [urlparse] leaves [parse_location] unchanged. *)
Lemma parse_location_urlparse_raises (uri : string) (e : exn) :
  Urllib.urlparse uri = Raise e -> parse_location uri = Raise e.
Proof. intros Hp. unfold parse_location. rewrite Hp. reflexivity. Qed.

(** [os.path.abspath] never accepts a [ParseResult]. *)
Lemma abspath_parse_result (r : Urllib.ParseResult) :
  Posixpath.abspath (Posixpath.PyParseResult r) =
  Raise (TypeError "expected str, bytes or os.PathLike object, not ParseResult").
Proof. reflexivity. Qed.

(** C2, as the code behaves: every location in which [urlparse] finds no
    scheme makes [parse_location] raise [TypeError]; no triple with the
    local-file scheme is returned. *)
Theorem parse_location_no_scheme_raises (uri : string) (r : Urllib.ParseResult) :
  Urllib.urlparse uri = Ok r ->
  Urllib.scheme r = "" ->
  parse_location uri =
  Raise (TypeError "expected str, bytes or os.PathLike object, not ParseResult").
Proof.
  intros Hp Hs.
  rewrite (parse_location_after_urlparse _ _ Hp), Hs.
  cbn [Str.truthy negb]. rewrite abspath_parse_result. reflexivity.
Qed.

(** C5, amended: whenever [urlparse] accepts the input and finds an
    explicit scheme, [parse_location] returns a triple that starts with
    that scheme and the authority, and raises nothing; whenever [urlparse]
    rejects the input, [parse_location] raises the exception that
    [urlparse] raised. *)
Theorem parse_location_total_on_schemes (uri : string) :
  (forall r : Urllib.ParseResult,
     Urllib.urlparse uri = Ok r ->
     Urllib.scheme r ≠ "" ->
     exists p : string,
       parse_location uri = Ok (Urllib.scheme r, Urllib.netloc r, p))
  /\ (forall e : exn,
        Urllib.urlparse uri = Raise e -> parse_location uri = Raise e).
Proof.
  split.
  - intros r Hp Hs.
    rewrite (parse_location_after_urlparse _ _ Hp).
    apply truthy_true in Hs. rewrite Hs. simpl.
    destruct (Str.mem _ _); eauto.
  - intros e Hp. unfold parse_location. rewrite Hp. reflexivity.
Qed.

(** C6: for the schemes [hdfs] and [viewfs] the triple is the scheme, the
    authority and the path component of the URI, the path untouched. *)
Theorem parse_location_hdfs (uri : string) (r : Urllib.ParseResult) :
  Urllib.urlparse uri = Ok r ->
  Urllib.scheme r = "hdfs" \/ Urllib.scheme r = "viewfs" ->
  parse_location uri = Ok (Urllib.scheme r, Urllib.netloc r, Urllib.path r).
Proof.
  intros Hp Hs.
  rewrite (parse_location_after_urlparse _ _ Hp).
  destruct Hs as [-> | ->]; reflexivity.
Qed.

(** C7: for every other explicit scheme the returned path is the authority
    followed by the path component. *)
Theorem parse_location_other_scheme (uri : string) (r : Urllib.ParseResult) :
  Urllib.urlparse uri = Ok r ->
  Urllib.scheme r ≠ "" ->
  Urllib.scheme r ≠ "hdfs" ->
  Urllib.scheme r ≠ "viewfs" ->
  parse_location uri =
  Ok (Urllib.scheme r, Urllib.netloc r, Urllib.netloc r +:+ Urllib.path r).
Proof.
  intros Hp Hs Hh Hv.
  rewrite (parse_location_after_urlparse _ _ Hp).
  apply truthy_true in Hs. rewrite Hs. simpl.
  assert (Hm : Str.mem (Urllib.scheme r) ["hdfs"; "viewfs"] = false).
  { apply mem_false. rewrite !not_elem_of_cons, elem_of_nil. tauto. }
  rewrite Hm. reflexivity.
Qed.

(** The same three facts, read off the text of the location. *)

(** X4: a location that starts with a slash, as every absolute POSIX path
    does, is never parsed: [parse_location] raises. *)
Lemma parse_location_slash_raises (rest : string) :
  exists e, parse_location (String "/" rest) = Raise e.
Proof.
  destruct (Urllib.urlparse (String "/" rest)) as [r | e] eqn:Hp.
  - eexists. rewrite (parse_location_after_urlparse _ _ Hp).
    rewrite (urlparse_slash_no_scheme _ _ Hp). reflexivity.
  - exists e. apply parse_location_urlparse_raises. exact Hp.
Qed.

Lemma parse_location_hdfs_prefix (rest : string) (r : Urllib.ParseResult) :
  Urllib.urlparse ("hdfs:" +:+ rest) = Ok r ->
  parse_location ("hdfs:" +:+ rest)
  = Ok ("hdfs", Urllib.netloc r, Urllib.path r).
Proof.
  intros Hp. rewrite (parse_location_after_urlparse _ _ Hp).
  rewrite (urlparse_explicit_scheme "h" "dfs" rest r eq_refl eq_refl Hp).
  reflexivity.
Qed.

(** X5: a location written [<scheme>:<rest>], with a scheme other than
    [hdfs] and [viewfs] in any mix of upper and lower case, yields the
    scheme in lower case and, as the path, the authority followed by the
    path component. *)
Lemma parse_location_explicit_scheme (c0 : ascii) (pre rest : string)
    (r : Urllib.ParseResult) :
  Str.is_ascii_alpha c0 = true ->
  Str.all Urllib.scheme_char (String c0 pre) = true ->
  Str.lower (String c0 pre) ≠ "hdfs" ->
  Str.lower (String c0 pre) ≠ "viewfs" ->
  Urllib.urlparse (String c0 pre +:+ String ":" rest) = Ok r ->
  parse_location (String c0 pre +:+ String ":" rest)
  = Ok (Str.lower (String c0 pre), Urllib.netloc r,
        Urllib.netloc r +:+ Urllib.path r).
Proof.
  intros Halpha Hall Hh Hv Hp.
  rewrite (parse_location_after_urlparse _ _ Hp).
  rewrite (urlparse_explicit_scheme _ _ _ _ Halpha Hall Hp).
  assert (Hm : Str.mem (Str.lower (String c0 pre)) ["hdfs"; "viewfs"] = false).
  { apply mem_false. rewrite !not_elem_of_cons, elem_of_nil. tauto. }
  rewrite Hm. reflexivity.
Qed.

End ParseLocation.

(** A relative path has no scheme: the code raises where the contract
    promises the absolute path under the working directory. *)
Lemma parse_location_no_scheme_raises_witness :
  @Urllib.urlparse posix_env "data/file.parquet" =
    Ok (Urllib.mkParseResult "" "" "data/file.parquet" "" "" "")
  /\ @parse_location posix_env "data/file.parquet" =
       Raise (TypeError "expected str, bytes or os.PathLike object, not ParseResult")
  /\ @parse_location_spec posix_env "data/file.parquet" =
       Ok ("file", "", "/home/iceberg/data/file.parquet").
Proof.
  split; [reflexivity | split; [| reflexivity]].
  apply (@parse_location_no_scheme_raises posix_env "data/file.parquet"
           (Urllib.mkParseResult "" "" "data/file.parquet" "" "" ""));
    reflexivity.
Defined.

(** C5 as stated fails: an authority with an unmatched bracket makes
    [urlparse], and with it [parse_location], raise [ValueError]. *)
Lemma parse_location_not_total :
  @parse_location posix_env "s3://[bucket/key" =
    Raise (ValueError "Invalid IPv6 URL")
  /\ ~ exists t, @parse_location posix_env "s3://[bucket/key" = Ok t.
Proof.
  split; [reflexivity |].
  intros [t Ht]. vm_compute in Ht. discriminate Ht.
Qed.

Lemma parse_location_total_on_schemes_witness :
  (exists p : string,
     @parse_location posix_env "s3://bucket/key" = Ok ("s3", "bucket", p))
  /\ @parse_location posix_env "s3://[bucket/key"
     = Raise (ValueError "Invalid IPv6 URL").
Proof.
  split.
  - apply (proj1 (@parse_location_total_on_schemes posix_env "s3://bucket/key")
             (Urllib.mkParseResult "s3" "bucket" "/key" "" "" ""));
      [reflexivity | discriminate].
  - apply (proj2 (@parse_location_total_on_schemes posix_env
                    "s3://[bucket/key")).
    reflexivity.
Defined.

Lemma parse_location_hdfs_witness :
  @parse_location posix_env "hdfs://namenode:8020/warehouse/t" =
  Ok ("hdfs", "namenode:8020", "/warehouse/t").
Proof.
  apply (@parse_location_hdfs posix_env "hdfs://namenode:8020/warehouse/t"
           (Urllib.mkParseResult "hdfs" "namenode:8020" "/warehouse/t" "" "" ""));
    [reflexivity | left; reflexivity].
Defined.

Lemma parse_location_other_scheme_witness :
  @parse_location posix_env "s3://bucket/key" =
  Ok ("s3", "bucket", "bucket/key").
Proof.
  apply (@parse_location_other_scheme posix_env "s3://bucket/key"
           (Urllib.mkParseResult "s3" "bucket" "/key" "" "" ""));
    [reflexivity | discriminate | discriminate | discriminate].
Defined.

(** * Properties of the monad *)

Lemma bind_ok {A B} (m : M A) (k : A -> M B) (s s' : state) (a : A) :
  m s = (Ok a, s') -> (m ≫= k) s = k a s'.
Proof. intros Hm. unfold mbind, M_bind. rewrite Hm. reflexivity. Qed.

Lemma bind_raise {A B} (m : M A) (k : A -> M B) (s s' : state) (e : exn) :
  m s = (Raise e, s') -> (m ≫= k) s = (Raise e, s').
Proof. intros Hm. unfold mbind, M_bind. rewrite Hm. reflexivity. Qed.

Lemma state_eta (s : state) : mkState (warnings s) (next_id s) (memo s) = s.
Proof. destruct s; reflexivity. Qed.

(** * Properties of scheme resolution *)

(** A stored entry answers the call and leaves the state alone: the body
    is not run. *)
Lemma cache_hit body (self : self_ref) (scheme : string) (s : state)
    (fs : filesystem) :
  memo s !! (self_id self, scheme) = Some fs ->
  cache body self scheme s = (Ok fs, s).
Proof. intros Hm. unfold cache. rewrite Hm. reflexivity. Qed.

(** A call that returns leaves its result stored under its arguments. *)
Lemma cache_stores body (self : self_ref) (scheme : string) (s s1 : state)
    (fs : filesystem) :
  cache body self scheme s = (Ok fs, s1) ->
  memo s1 !! (self_id self, scheme) = Some fs.
Proof.
  unfold cache. intros Hc.
  destruct (memo s !! (self_id self, scheme)) as [fs0 |] eqn:Hm.
  - injection Hc as -> ->. exact Hm.
  - destruct (body self scheme s) as [[fs1 | e] s'] eqn:Hb; [| discriminate].
    injection Hc as -> <-. simpl. apply lookup_insert_eq.
Qed.

(** Entries are never evicted or overwritten by later cached calls. *)
Lemma cache_keeps_entries body (self self' : self_ref) (scheme scheme' : string)
    (s s' : state) (r : result filesystem) (fs : filesystem) :
  memo_preserving body ->
  memo s !! (self_id self, scheme) = Some fs ->
  cache body self' scheme' s = (r, s') ->
  memo s' !! (self_id self, scheme) = Some fs.
Proof.
  intros Hpres Hm. unfold cache.
  destruct (memo s !! (self_id self', scheme')) as [fs0 |] eqn:Hm'.
  - intros [= <- <-]. exact Hm.
  - destruct (body self' scheme' s) as [[fs1 | e] s1] eqn:Hb.
    + intros [= <- <-]. simpl. rewrite (Hpres _ _ _ _ _ Hb).
      rewrite lookup_insert_ne; [exact Hm | congruence].
    + intros [= <- <-]. rewrite (Hpres _ _ _ _ _ Hb). exact Hm.
Qed.

(** C9: once [fs_by_scheme] has returned for an instance and a scheme, a
    second call with the same instance and scheme returns the very same
    object and leaves the state as it was: no client is constructed and
    nothing is stored anew. *)
Theorem fs_by_scheme_memoized (resolve : self_ref -> string -> M filesystem)
    (self : self_ref) (scheme : string) (s s1 : state) (fs : filesystem) :
  backend_fs_by_scheme resolve self scheme s = (Ok fs, s1) ->
  backend_fs_by_scheme resolve self scheme s1 = (Ok fs, s1).
Proof.
  unfold backend_fs_by_scheme. intros Hfirst.
  apply cache_hit. exact (cache_stores _ _ _ _ _ _ Hfirst).
Qed.

(** When the resolver signals an unsupported scheme by [None] and never
    raises, two calls in a row always agree. *)
Lemma fs_by_scheme_twice (resolve : self_ref -> string -> M filesystem)
    (self : self_ref) (scheme : string) (s : state) :
  (forall self scheme s, exists fs s', resolve self scheme s = (Ok fs, s')) ->
  exists fs s1,
    backend_fs_by_scheme resolve self scheme s = (Ok fs, s1)
    /\ backend_fs_by_scheme resolve self scheme s1 = (Ok fs, s1).
Proof.
  intros Hret. unfold backend_fs_by_scheme.
  assert (Hfirst : exists fs s1, cache resolve self scheme s = (Ok fs, s1)).
  { unfold cache. destruct (memo s !! (self_id self, scheme)) as [fs |].
    - eauto.
    - destruct (Hret self scheme s) as (fs & s' & ->). eauto. }
  destruct Hfirst as (fs & s1 & Hfirst). exists fs, s1.
  split; [exact Hfirst |].
  apply cache_hit. exact (cache_stores _ _ _ _ _ _ Hfirst).
Qed.

(** The same holds with any number of resolutions in between, for other
    schemes or other instances. *)
Lemma fs_by_scheme_memoized_later (resolve : self_ref -> string -> M filesystem)
    (calls : list (self_ref * string)) (self : self_ref) (scheme : string)
    (s : state) (fs : filesystem) :
  memo_preserving resolve ->
  memo s !! (self_id self, scheme) = Some fs ->
  let after :=
    foldl (fun st c => (backend_fs_by_scheme resolve c.1 c.2 st).2) s calls in
  backend_fs_by_scheme resolve self scheme after = (Ok fs, after).
Proof.
  intros Hpres Hm after. apply cache_hit. subst after.
  revert s Hm. induction calls as [| [self' scheme'] calls IH]; intros s Hm.
  - exact Hm.
  - simpl. apply IH.
    destruct (backend_fs_by_scheme resolve self' scheme' s) as [r s'] eqn:Hc.
    simpl. exact (cache_keeps_entries _ _ _ _ _ _ _ _ _ Hpres Hm Hc).
Qed.

(** X19: the abstract body behaves the same way: it answers
    [NotImplemented], not [None], and that answer is remembered like any
    other. *)
Lemma FileIO_fs_by_scheme_abstract (self : self_ref) (scheme : string)
    (s : state) :
  memo s !! (self_id self, scheme) = None ->
  let s1 :=
    mkState (warnings s) (next_id s)
      (<[(self_id self, scheme) := NotImplemented]> (memo s)) in
  FileIO_fs_by_scheme self scheme s = (Ok NotImplemented, s1)
  /\ FileIO_fs_by_scheme self scheme s1 = (Ok NotImplemented, s1).
Proof.
  intros Hm s1. unfold FileIO_fs_by_scheme.
  assert (Hfirst : cache (fun _ _ => mret NotImplemented) self scheme s
                   = (Ok NotImplemented, s1)).
  { unfold cache. rewrite Hm. reflexivity. }
  split; [exact Hfirst |].
  apply cache_hit. exact (cache_stores _ _ _ _ _ _ Hfirst).
Qed.

Lemma fs_by_scheme_memoized_witness :
  backend_fs_by_scheme (resolver ["s3"]) (mkSelf 0 ∅) "s3" (mkState [] 1 ∅)
    = (Ok (Client 1), mkState [] 2 {[ (0, "s3") := Client 1 ]})
  /\ backend_fs_by_scheme (resolver ["s3"]) (mkSelf 0 ∅) "s3"
       (mkState [] 2 {[ (0, "s3") := Client 1 ]})
     = (Ok (Client 1), mkState [] 2 {[ (0, "s3") := Client 1 ]}).
Proof.
  split; [reflexivity |].
  apply (fs_by_scheme_memoized (resolver ["s3"]) (mkSelf 0 ∅) "s3"
           (mkState [] 1 ∅)).
  reflexivity.
Defined.

(** * Properties of [fs_by_uri] *)

(** C3, as the code behaves: on an instance whose class brings no
    [parse_uri] of its own, which is every class that implements just the
    abstract methods of [FileIO], [fs_by_uri] raises [AttributeError] for
    every URI and resolves nothing. *)
Theorem fs_by_uri_without_parse_uri (file_io : FileIO) (uri : string)
    (s : state) :
  cls_parse_uri (class_of file_io) = None ->
  fs_by_uri file_io uri s =
  (Raise (AttributeError
            ("'" +:+ cls_name (class_of file_io)
             +:+ "' object has no attribute 'parse_uri'")), s).
Proof. intros Hn. unfold fs_by_uri. rewrite Hn. reflexivity. Qed.

(** What the contract asks for is obtained when the class supplies
    [parse_location] under the name [parse_uri]. *)
Lemma fs_by_uri_with_parse_location `{PyEnv} (file_io : FileIO) (uri : string)
    (s : state) :
  cls_parse_uri (class_of file_io)
    = Some (fun _ uri => lift (parse_location uri)) ->
  fs_by_uri file_io uri s =
  ('(scheme, _, _) ← lift (parse_location uri); fs_by_scheme file_io scheme) s.
Proof. intros Hp. unfold fs_by_uri. rewrite Hp. reflexivity. Qed.

Lemma fs_by_uri_without_parse_uri_witness :
  fs_by_uri plain_file_io "s3://bucket/key" (mkState [] 1 ∅) =
    (Raise (AttributeError
              "'PyArrowFileIO' object has no attribute 'parse_uri'"),
     mkState [] 1 ∅)
  /\ ('(scheme, _, _) ← lift (@parse_location posix_env "s3://bucket/key");
      fs_by_scheme plain_file_io scheme) (mkState [] 1 ∅) =
    (Ok (Client 1), mkState [] 2 {[ (0, "s3") := Client 1 ]}).
Proof.
  split; [| reflexivity].
  apply (fs_by_uri_without_parse_uri plain_file_io "s3://bucket/key"
           (mkState [] 1 ∅)).
  reflexivity.
Defined.

(** * Properties of backend selection *)

Section Selector.
Context `{Backends}.

Lemma parser_canonical (v : string) (s : state) :
  v = FSSPEC \/ v = PYARROW ->
  _py_io_impl_argument_parser v s = (Ok (Some v), s).
Proof. intros [-> | ->]; reflexivity. Qed.

Lemma parser_unknown (v : string) (s : state) :
  v ≠ FSSPEC -> v ≠ PYARROW -> v ≠ FSSPEC_FILE_IO -> v ≠ ARROW_FILE_IO ->
  _py_io_impl_argument_parser v s = (Ok None, s).
Proof.
  intros H1 H2 H3 H4. unfold _py_io_impl_argument_parser.
  assert (Hm : Str.mem v [FSSPEC; PYARROW] = false).
  { apply bool_decide_eq_false.
    rewrite !not_elem_of_cons, elem_of_nil. tauto. }
  rewrite Hm. unfold Str.eqb.
  rewrite !bool_decide_eq_false_2 by assumption. reflexivity.
Qed.

(** The parser never raises; it adds the deprecation warning of its
    argument, if any, and touches nothing else. *)
Lemma parser_returns (props : gmap string string) (s : state) :
  exists impl,
    _py_io_impl_argument_parser
      (default DEFAULT_PY_IO_IMPL (props !! PY_IO_IMPL)) s
    = (Ok impl,
       mkState (warnings s ++ deprecation_warnings props)
         (next_id s) (memo s)).
Proof.
  unfold deprecation_warnings.
  destruct (props !! PY_IO_IMPL) as [v |]; simpl.
  - destruct (decide (v = FSSPEC_FILE_IO)) as [-> | Hf].
    { eexists. reflexivity. }
    destruct (decide (v = ARROW_FILE_IO)) as [-> | Ha].
    { eexists. reflexivity. }
    rewrite !bool_decide_eq_false_2 by assumption.
    rewrite app_nil_r, state_eta.
    destruct (decide (v = FSSPEC)) as [-> | H1]; [eexists; reflexivity |].
    destruct (decide (v = PYARROW)) as [-> | H2]; [eexists; reflexivity |].
    exists None. apply parser_unknown; assumption.
  - exists (Some PYARROW). rewrite app_nil_r, state_eta. reflexivity.
Qed.

(** [load_file_io] without a location to probe: the parser runs and the
    class of the branch taken is instantiated. *)
Lemma load_file_io_no_location (props : gmap string string) (s : state) :
  load_file_io props None s =
  (impl ← _py_io_impl_argument_parser
            (default DEFAULT_PY_IO_IMPL (props !! PY_IO_IMPL));
   new (primary impl) props) s.
Proof.
  unfold load_file_io, primary.
  destruct (parser_returns props s) as [impl Hp].
  rewrite !(bind_ok _ _ _ _ _ Hp).
  destruct (bool_decide (impl = Some PYARROW)); reflexivity.
Qed.

(** C1, as the code behaves: a value of [py-io-impl] outside the four
    recognised ones raises nothing; the parser returns [None] and
    [load_file_io] returns a new instance of [FsspecFileIO]. *)
Theorem unrecognized_impl_not_rejected (props : gmap string string)
    (v : string) (s : state) :
  props !! PY_IO_IMPL = Some v ->
  v ≠ FSSPEC -> v ≠ PYARROW -> v ≠ FSSPEC_FILE_IO -> v ≠ ARROW_FILE_IO ->
  _py_io_impl_argument_parser v s = (Ok None, s)
  /\ load_file_io props None s =
       (Ok (mkFileIO FsspecFileIO (mkSelf (next_id s) props)),
        mkState (warnings s) (S (next_id s)) (memo s)).
Proof.
  intros Hv H1 H2 H3 H4.
  pose proof (parser_unknown v s H1 H2 H3 H4) as Hp.
  split; [exact Hp |].
  rewrite load_file_io_no_location, Hv. simpl.
  rewrite (bind_ok _ _ _ _ _ Hp). reflexivity.
Qed.

(** C8: each deprecated spelling is mapped to its canonical identifier
    with exactly one warning added and no exception, and [load_file_io]
    then returns an instance of the backend of that identifier. *)
Theorem deprecated_spellings_select_canonical (props : gmap string string)
    (s : state) :
  _py_io_impl_argument_parser FSSPEC_FILE_IO s =
    (Ok (Some FSSPEC),
     mkState (warnings s ++ [fsspec_deprecation]) (next_id s) (memo s))
  /\ _py_io_impl_argument_parser ARROW_FILE_IO s =
       (Ok (Some PYARROW),
        mkState (warnings s ++ [pyarrow_deprecation]) (next_id s) (memo s))
  /\ load_file_io (<[PY_IO_IMPL := FSSPEC_FILE_IO]> props) None s =
       (Ok (mkFileIO FsspecFileIO
              (mkSelf (next_id s) (<[PY_IO_IMPL := FSSPEC_FILE_IO]> props))),
        mkState (warnings s ++ [fsspec_deprecation]) (S (next_id s)) (memo s))
  /\ load_file_io (<[PY_IO_IMPL := ARROW_FILE_IO]> props) None s =
       (Ok (mkFileIO PyArrowFileIO
              (mkSelf (next_id s) (<[PY_IO_IMPL := ARROW_FILE_IO]> props))),
        mkState (warnings s ++ [pyarrow_deprecation]) (S (next_id s)) (memo s)).
Proof.
  split; [reflexivity | split; [reflexivity | split]].
  - rewrite load_file_io_no_location, lookup_insert_eq. reflexivity.
  - rewrite load_file_io_no_location, lookup_insert_eq. reflexivity.
Qed.

(** C10: the empty string is falsy, so [load_file_io] with an empty
    location runs exactly as without a location: [fs_by_uri] is not called,
    no fallback happens, and the instance is that of the class chosen from
    the property bag. *)
Theorem empty_location_is_no_location (props : gmap string string)
    (s : state) :
  load_file_io props (Some "") s = load_file_io props None s
  /\ load_file_io props None s =
       (impl ← _py_io_impl_argument_parser
                 (default DEFAULT_PY_IO_IMPL (props !! PY_IO_IMPL));
        new (primary impl) props) s.
Proof.
  split; [| apply load_file_io_no_location].
  unfold load_file_io.
  destruct (parser_returns props s) as [impl Hp].
  rewrite !(bind_ok _ _ _ _ _ Hp).
  destruct (bool_decide (impl = Some PYARROW)); reflexivity.
Qed.

Lemma new_run (cls : FileIOClass) (props : gmap string string) (s : state) :
  new cls props s =
  (Ok (mkFileIO cls (mkSelf (next_id s) props)),
   mkState (warnings s) (S (next_id s)) (memo s)).
Proof. reflexivity. Qed.

(** The test of the fallback is true when the location is not empty and
    the probe returns [None]. *)
Lemma probe_unsupported (file_io : FileIO) (location : string) (s s2 : state) :
  location ≠ "" ->
  fs_by_uri file_io location s = (Ok PyNone, s2) ->
  location_and_unsupported (Some location) file_io s = (Ok true, s2).
Proof.
  intros Hloc Hprobe.
  destruct location as [| c location]; [congruence |].
  unfold location_and_unsupported.
  rewrite (bind_ok _ _ _ _ _ Hprobe). reflexivity.
Qed.

(** C4, amended: when the location is not empty and [fs_by_uri] of the
    instance built first returns [None], [load_file_io] returns a new
    instance of the other backend and raises nothing.  The other backend
    is not probed: the final state is the state after the one probe, plus
    one fallback warning and one allocation.  The fallback warning follows
    the deprecation warning of the parser, when there is one. *)
Theorem fallback_to_alternate (props : gmap string string) (location : string)
    (impl : option string) (s s0 s2 : state) :
  location ≠ "" ->
  _py_io_impl_argument_parser
    (default DEFAULT_PY_IO_IMPL (props !! PY_IO_IMPL)) s = (Ok impl, s0) ->
  fs_by_uri (mkFileIO (primary impl) (mkSelf (next_id s0) props)) location
    (mkState (warnings s0) (S (next_id s0)) (memo s0)) = (Ok PyNone, s2) ->
  warnings s0 = (warnings s ++ deprecation_warnings props)%list
  /\ load_file_io props (Some location) s =
       (Ok (mkFileIO (alternate impl) (mkSelf (next_id s2) props)),
        mkState (warnings s2 ++ [fallback_warning impl (Some location)])
          (S (next_id s2)) (memo s2)).
Proof.
  intros Hloc Hparse Hprobe. split.
  - destruct (parser_returns props s) as [impl' Hp].
    rewrite Hp in Hparse. injection Hparse as _ <-. reflexivity.
  - unfold load_file_io, primary, alternate, fallback_warning in *.
    rewrite (bind_ok _ _ _ _ _ Hparse).
    destruct (bool_decide (impl = Some PYARROW));
      rewrite (bind_ok _ _ _ _ _ (new_run _ props s0));
      rewrite (bind_ok _ _ _ _ _ (probe_unsupported _ _ _ _ Hloc Hprobe));
      reflexivity.
Qed.

End Selector.

Lemma unrecognized_impl_not_rejected_witness :
  _py_io_impl_argument_parser "s3fs" initial_state = (Ok None, initial_state)
  /\ @load_file_io plain_backends {[PY_IO_IMPL := "s3fs"]} None initial_state =
       (Ok (mkFileIO (plain_backend "FsspecFileIO" ["file"; "s3"; "abfs"])
              (mkSelf 0 {[PY_IO_IMPL := "s3fs"]})),
        mkState [] 1 ∅).
Proof.
  apply (@unrecognized_impl_not_rejected plain_backends
           {[PY_IO_IMPL := "s3fs"]} "s3fs" initial_state);
    [reflexivity | discriminate | discriminate | discriminate | discriminate].
Defined.

(** C4 as stated fails: with a deprecated spelling in the property bag the
    fallback is the second warning of the call, not the only one. *)
Lemma fallback_after_deprecation_two_warnings :
  _py_io_impl_argument_parser ARROW_FILE_IO initial_state =
    (Ok (Some PYARROW), mkState [pyarrow_deprecation] 0 ∅)
  /\ fs_by_uri
       (mkFileIO (@PyArrowFileIO parsing_backends) (mkSelf 0 deprecated_props))
       "abfs://container/t" (mkState [pyarrow_deprecation] 1 ∅)
     = (Ok PyNone,
        mkState [pyarrow_deprecation] 1 {[ (0, "abfs") := PyNone ]})
  /\ @load_file_io parsing_backends deprecated_props
       (Some "abfs://container/t") initial_state
     = (Ok (mkFileIO (@FsspecFileIO parsing_backends)
              (mkSelf 1 deprecated_props)),
        mkState
          [pyarrow_deprecation; pyarrow_fallback (Some "abfs://container/t")]
          2 {[ (0, "abfs") := PyNone ]})
  /\ List.length
       (warnings
          (@load_file_io parsing_backends deprecated_props
             (Some "abfs://container/t") initial_state).2) = 2.
Proof.
  split; [reflexivity | split; [reflexivity | split; reflexivity]].
Qed.

Lemma fallback_to_alternate_witness :
  @load_file_io parsing_backends ∅ (Some "abfs://container/t") initial_state =
  (Ok (mkFileIO (@FsspecFileIO parsing_backends) (mkSelf 1 ∅)),
   mkState [pyarrow_fallback (Some "abfs://container/t")] 2
     {[ (0, "abfs") := PyNone ]}).
Proof.
  refine (proj2 (@fallback_to_alternate parsing_backends ∅
                   "abfs://container/t" (Some PYARROW)
                   initial_state initial_state
                   (mkState [] 1 {[ (0, "abfs") := PyNone ]}) _ _ _));
    [discriminate | reflexivity | reflexivity].
Defined.

(** * Further properties of the location parser *)

Section ParseLocationMore.
Context `{PyEnv}.

Lemma contains_app (c : ascii) (a b : string) :
  Str.contains c (a +:+ b) = Str.contains c a || Str.contains c b.
Proof.
  induction a as [| x a IH]; simpl; [reflexivity |].
  rewrite IH. apply orb_assoc.
Qed.

(** [split1] cuts at the first occurrence, which is not in the head. *)
Lemma split1_spec (c : ascii) (s h t : string) :
  Str.split1 c s = Some (h, t) ->
  s = h +:+ String c t /\ Str.contains c h = false.
Proof.
  revert h. induction s as [| a s IH]; simpl; intros h; [discriminate |].
  destruct (Ascii.eqb_spec a c) as [-> | Hac].
  - intros [= <- <-]. split; reflexivity.
  - destruct (Str.split1 c s) as [[h' t'] |]; [| discriminate].
    intros [= <- <-]. destruct (IH h' eq_refl) as [-> Hh]. split.
    + reflexivity.
    + simpl. rewrite Hh, orb_false_r. apply Ascii.eqb_neq. exact Hac.
Qed.

Lemma rcut_spec (c : ascii) (s h t : string) :
  Str.rcut c s = Some (h, t) -> s = h +:+ t.
Proof.
  revert h. induction s as [| a s IH]; simpl; intros h; [discriminate |].
  destruct (Str.rcut c s) as [[h' t'] |].
  - intros [= <- <-]. rewrite (IH h' eq_refl). reflexivity.
  - destruct (Ascii.eqb a c); [| discriminate].
    intros [= <- <-]. reflexivity.
Qed.

(** The head of [span] holds no character of the predicate. *)
Lemma span_head (p : ascii -> bool) (c : ascii) (s : string) :
  p c = true -> Str.contains c (Str.span p s).1 = false.
Proof.
  intros Hc. induction s as [| a s IH]; simpl; [reflexivity |].
  destruct (p a) eqn:Ha; [reflexivity |].
  destruct (Str.span p s) as [h t]. simpl in *.
  rewrite IH, orb_false_r.
  destruct (Ascii.eqb_spec a c) as [-> |]; congruence.
Qed.

(** What [cut] keeps holds neither the separator nor anything new. *)
Lemma cut_head (c d : ascii) (url : string) :
  Str.contains c (Urllib.cut c url).1 = false
  /\ (Str.contains d url = false ->
      Str.contains d (Urllib.cut c url).1 = false).
Proof.
  unfold Urllib.cut.
  destruct (Str.split1 c url) as [[h t] |] eqn:Hs; simpl.
  - destruct (split1_spec _ _ _ _ Hs) as [-> Hh].
    split; [exact Hh |].
    rewrite contains_app. intros Hd.
    apply orb_false_iff in Hd as [Hd _]. exact Hd.
  - split; [| tauto].
    clear -Hs. induction url as [| a url IH]; simpl in *; [reflexivity |].
    destruct (Ascii.eqb a c); [discriminate |].
    destruct (Str.split1 c url) as [[h t] |]; [discriminate |].
    apply IH. reflexivity.
Qed.

Lemma splitparams_head (d : ascii) (url : string) :
  Str.contains d url = false ->
  Str.contains d (Urllib.splitparams url).1 = false.
Proof.
  intros Hd. unfold Urllib.splitparams.
  destruct (Str.rcut "/" url) as [[dir base] |] eqn:Hr.
  - destruct (Str.split1 ";" base) as [[b p] |] eqn:Hs; simpl; [| exact Hd].
    apply rcut_spec in Hr. destruct (split1_spec _ _ _ _ Hs) as [Hb _].
    subst url base. rewrite !contains_app in Hd. rewrite contains_app.
    apply orb_false_iff in Hd as [Hdir Hrest].
    apply orb_false_iff in Hrest as [Hb _]. rewrite Hdir, Hb. reflexivity.
  - destruct (Str.split1 ";" url) as [[b p] |] eqn:Hs; simpl; [| exact Hd].
    destruct (split1_spec _ _ _ _ Hs) as [-> _].
    rewrite contains_app in Hd. apply orb_false_iff in Hd as [Hb _]. exact Hb.
Qed.

(** The authority found by [urlsplit] holds none of [/], [?] and [#]. *)
Lemma split_authority_netloc (url nl rest : string) (c : ascii) :
  Str.contains c "/?#" = true ->
  Urllib.split_authority url = Ok (nl, rest) ->
  Str.contains c nl = false.
Proof.
  intros Hc. unfold Urllib.split_authority.
  assert (Hdef : Ok ("", url) = Ok (nl, rest) -> Str.contains c nl = false).
  { intros [= <- _]. reflexivity. }
  destruct url as [| a [| b after]]; [exact Hdef | |].
  - destruct a as [[] [] [] [] [] [] [] []]; exact Hdef.
  - destruct a as [[] [] [] [] [] [] [] []]; try exact Hdef.
    destruct b as [[] [] [] [] [] [] [] []]; try exact Hdef.
    unfold Urllib.splitnetloc.
    pose proof (span_head (fun c => Str.contains c "/?#") c after Hc) as Hh.
    destruct (Str.span _ after) as [h t]. simpl in Hh.
    unfold mbind, result_bind, rbind.
    destruct (Urllib.check_brackets h); [| discriminate].
    intros [= <- _]. exact Hh.
Qed.

(** Neither the authority nor the path reported by [urlsplit] holds a
    question mark or a hash. *)
Lemma urlsplit_clean (url : string) (r : Urllib.SplitResult) (c : ascii) :
  c = "?"%char \/ c = "#"%char ->
  Urllib.urlsplit url = Ok r ->
  Str.contains c (Urllib.s_netloc r) = false
  /\ Str.contains c (Urllib.s_path r) = false.
Proof.
  intros Hc. unfold Urllib.urlsplit.
  destruct (Urllib.split_scheme _) as [sch u].
  unfold mbind, result_bind, rbind.
  destruct (Urllib.split_authority u) as [[nl u'] | e] eqn:Ha; [| discriminate].
  pose proof (cut_head "#" "#" u') as [Hhash _].
  destruct (Urllib.cut "#" u') as [u1 frag]. simpl in Hhash.
  pose proof (cut_head "?" "#" u1) as [Hq Hkeep].
  destruct (Urllib.cut "?" u1) as [u2 qry]. simpl in Hq, Hkeep.
  intros [= <-]. simpl. split.
  - apply (split_authority_netloc _ _ _ c) in Ha; [exact Ha |].
    destruct Hc as [-> | ->]; reflexivity.
  - destruct Hc as [-> | ->]; [exact Hq | exact (Hkeep Hhash)].
Qed.

Lemma urlparse_clean (url : string) (r : Urllib.ParseResult) (c : ascii) :
  c = "?"%char \/ c = "#"%char ->
  Urllib.urlparse url = Ok r ->
  Str.contains c (Urllib.netloc r) = false
  /\ Str.contains c (Urllib.path r) = false.
Proof.
  intros Hc. unfold Urllib.urlparse, mbind, result_bind, rbind.
  destruct (Urllib.urlsplit url) as [sr | e] eqn:Hs; [| discriminate].
  destruct (urlsplit_clean _ _ _ Hc Hs) as [Hn Hp].
  destruct (_ && _).
  - pose proof (splitparams_head c _ Hp) as Hsp.
    destruct (Urllib.splitparams _) as [u prm]. simpl in Hsp.
    intros [= <-]. split; assumption.
  - intros [= <-]. split; assumption.
Qed.

(** X1: a triple is returned only for a location in which [urlparse] found
    an explicit scheme: the scheme of the triple is that scheme and is never
    empty, the authority is the URI's, and the path is the URI's path for
    [hdfs] and [viewfs] and the authority followed by the path otherwise.
    The local-file default is never the source of a result. *)
Theorem parse_location_returns_inv (uri sch nl p : string) :
  parse_location uri = Ok (sch, nl, p) ->
  exists r,
    Urllib.urlparse uri = Ok r
    /\ sch = Urllib.scheme r /\ sch ≠ ""
    /\ nl = Urllib.netloc r
    /\ p = if Str.mem sch ["hdfs"; "viewfs"] then Urllib.path r
           else Urllib.netloc r +:+ Urllib.path r.
Proof.
  intros Hres.
  destruct (Urllib.urlparse uri) as [r | e] eqn:Hp.
  - exists r. split; [reflexivity |].
    rewrite (parse_location_after_urlparse _ _ Hp) in Hres.
    destruct (Str.truthy (Urllib.scheme r)) eqn:Ht; simpl in Hres.
    + apply truthy_true in Ht.
      destruct (Str.mem (Urllib.scheme r) ["hdfs"; "viewfs"]) eqn:Hm;
        injection Hres as <- <- <-; rewrite Hm; auto.
    + discriminate Hres.
  - rewrite (parse_location_urlparse_raises _ _ Hp) in Hres. discriminate.
Qed.

(** X2: the path of a returned triple holds neither a question mark nor a
    hash: the query and the fragment of the location, and everything after
    their first separator, are dropped. *)
Theorem parse_location_drops_query_and_fragment (uri sch nl p : string) :
  parse_location uri = Ok (sch, nl, p) ->
  Str.contains "?" p = false /\ Str.contains "#" p = false.
Proof.
  intros Hres.
  destruct (Urllib.urlparse uri) as [r | e] eqn:Hp.
  - rewrite (parse_location_after_urlparse _ _ Hp) in Hres.
    destruct (urlparse_clean _ _ "?" (or_introl eq_refl) Hp) as [Hnq Hpq].
    destruct (urlparse_clean _ _ "#" (or_intror eq_refl) Hp) as [Hnh Hph].
    destruct (Str.truthy (Urllib.scheme r)); simpl in Hres;
      [| discriminate Hres].
    destruct (Str.mem (Urllib.scheme r) ["hdfs"; "viewfs"]);
      injection Hres as <- <- <-; rewrite ?contains_app, ?Hnq, ?Hpq, ?Hnh, ?Hph;
      split; reflexivity.
  - rewrite (parse_location_urlparse_raises _ _ Hp) in Hres. discriminate.
Qed.

(** X3: a location written [<scheme>:<rest>] whose scheme is [hdfs] or
    [viewfs] in any mix of upper and lower case is treated as that scheme:
    the scheme is returned in lower case with the path untouched. *)
Theorem parse_location_hdfs_any_case (c0 : ascii) (pre rest : string)
    (r : Urllib.ParseResult) :
  Str.is_ascii_alpha c0 = true ->
  Str.all Urllib.scheme_char (String c0 pre) = true ->
  Str.lower (String c0 pre) = "hdfs" \/ Str.lower (String c0 pre) = "viewfs" ->
  Urllib.urlparse (String c0 pre +:+ String ":" rest) = Ok r ->
  parse_location (String c0 pre +:+ String ":" rest)
  = Ok (Str.lower (String c0 pre), Urllib.netloc r, Urllib.path r).
Proof.
  intros Halpha Hall Hs Hp.
  rewrite (parse_location_after_urlparse _ _ Hp).
  rewrite (urlparse_explicit_scheme _ _ _ _ Halpha Hall Hp).
  destruct Hs as [-> | ->]; reflexivity.
Qed.

End ParseLocationMore.

Lemma parse_location_returns_inv_witness :
  exists r,
    @Urllib.urlparse posix_env "s3://bucket/key?versionId=7" = Ok r
    /\ "s3" = Urllib.scheme r /\ "s3" ≠ ""
    /\ "bucket" = Urllib.netloc r
    /\ "bucket/key" = if Str.mem "s3" ["hdfs"; "viewfs"] then Urllib.path r
                      else Urllib.netloc r +:+ Urllib.path r.
Proof.
  apply (@parse_location_returns_inv posix_env "s3://bucket/key?versionId=7").
  reflexivity.
Defined.

Lemma parse_location_drops_query_and_fragment_witness :
  @parse_location posix_env "s3://bucket/data#1.parquet"
    = Ok ("s3", "bucket", "bucket/data")
  /\ Str.contains "?" "bucket/data" = false
  /\ Str.contains "#" "bucket/data" = false.
Proof.
  split; [reflexivity |].
  apply (@parse_location_drops_query_and_fragment posix_env
           "s3://bucket/data#1.parquet" "s3" "bucket").
  reflexivity.
Defined.

Lemma parse_location_hdfs_any_case_witness :
  @parse_location posix_env "HDFS://namenode:8020/warehouse/t"
  = Ok ("hdfs", "namenode:8020", "/warehouse/t").
Proof.
  apply (@parse_location_hdfs_any_case posix_env "H" "DFS"
           "//namenode:8020/warehouse/t"
           (Urllib.mkParseResult "hdfs" "namenode:8020" "/warehouse/t" "" "" ""));
    [reflexivity | reflexivity | left; reflexivity | reflexivity].
Defined.

Lemma parse_location_explicit_scheme_witness :
  @parse_location posix_env "S3A://Bucket/key" = Ok ("s3a", "Bucket", "Bucket/key").
Proof.
  apply (@parse_location_explicit_scheme posix_env "S" "3A" "//Bucket/key"
           (Urllib.mkParseResult "s3a" "Bucket" "/key" "" "" ""));
    [reflexivity | reflexivity | discriminate | discriminate | reflexivity].
Defined.

(** * Further properties of scheme resolution *)

(** The resolver of the examples leaves the memo alone. *)
Lemma resolver_memo_preserving (supported : list string) :
  memo_preserving (resolver supported).
Proof.
  intros self scheme s r s'. unfold resolver.
  destruct (Str.mem scheme supported); intros [= <- <-]; reflexivity.
Qed.

(** X8: the decorator never evicts or overwrites an answer.  Provided the
    resolver itself leaves the memo alone ([memo_preserving]: it neither
    clears the cache nor calls the cached method), after any sequence of
    further resolutions, for whatever instances and schemes, and whether
    they return or raise, a pair that has been answered is still answered
    with the same object and without running the resolver. *)
Theorem fs_by_scheme_entries_persist
    (resolve : self_ref -> string -> M filesystem)
    (calls : list (self_ref * string)) (self : self_ref) (scheme : string)
    (s s1 : state) (fs : filesystem) :
  memo_preserving resolve ->
  backend_fs_by_scheme resolve self scheme s = (Ok fs, s1) ->
  let after :=
    foldl (fun st c => (backend_fs_by_scheme resolve c.1 c.2 st).2) s1 calls in
  backend_fs_by_scheme resolve self scheme after = (Ok fs, after).
Proof.
  intros Hpres Hfirst after. subst after.
  apply fs_by_scheme_memoized_later; [exact Hpres |].
  exact (cache_stores _ _ _ _ _ _ Hfirst).
Qed.

(** * Further properties of [fs_by_uri] *)

Section FsByUriMore.

(** X9: resolution looks at the scheme alone: on an instance whose
    [parse_uri] is a pure parser and whose [fs_by_scheme] is memoized, two
    locations with the same scheme obtain the very same client, whatever
    their authorities and paths; the second call constructs nothing. *)
Theorem fs_by_uri_same_scheme_same_client (file_io : FileIO)
    (parse : string -> result (string * string * string))
    (resolve : self_ref -> string -> M filesystem)
    (uri1 uri2 sch nl1 p1 nl2 p2 : string) (s s1 : state) (fs : filesystem) :
  cls_parse_uri (class_of file_io) = Some (fun _ uri => lift (parse uri)) ->
  cls_fs_by_scheme (class_of file_io) = backend_fs_by_scheme resolve ->
  parse uri1 = Ok (sch, nl1, p1) ->
  parse uri2 = Ok (sch, nl2, p2) ->
  fs_by_uri file_io uri1 s = (Ok fs, s1) ->
  fs_by_uri file_io uri2 s1 = (Ok fs, s1).
Proof.
  intros Hparse Hfs H1 H2. unfold fs_by_uri, fs_by_scheme.
  rewrite Hparse, Hfs.
  rewrite (bind_ok _ _ s s (sch, nl1, p1)) by (unfold lift; rewrite H1; reflexivity).
  rewrite (bind_ok _ _ s1 s1 (sch, nl2, p2)) by (unfold lift; rewrite H2; reflexivity).
  intros Hfirst. apply cache_hit.
  exact (cache_stores _ _ _ _ _ _ Hfirst).
Qed.

(** With [parse_location] as the parser of the class, no location that
    starts with a slash can be resolved: [fs_by_uri] raises before
    [fs_by_scheme] is reached and the state is untouched. *)
Lemma fs_by_uri_slash_raises `{PyEnv} (file_io : FileIO)
    (rest : string) (s : state) :
  cls_parse_uri (class_of file_io)
    = Some (fun _ uri => lift (parse_location uri)) ->
  exists e, fs_by_uri file_io (String "/" rest) s = (Raise e, s).
Proof.
  intros Hparse. unfold fs_by_uri. rewrite Hparse.
  assert (Hr : exists e, parse_location (String "/" rest) = Raise e).
  { destruct (Urllib.urlparse (String "/" rest)) as [r | e] eqn:Hp.
    - eexists. rewrite (parse_location_after_urlparse _ _ Hp).
      rewrite (urlparse_slash_no_scheme _ _ Hp). reflexivity.
    - exists e. apply parse_location_urlparse_raises. exact Hp. }
  destruct Hr as [e He]. exists e.
  apply bind_raise. unfold lift. rewrite He. reflexivity.
Qed.

End FsByUriMore.

Lemma fs_by_scheme_entries_persist_witness :
  backend_fs_by_scheme (resolver ["s3"; "gs"]) (mkSelf 0 ∅) "s3"
    (foldl (fun st c =>
              (backend_fs_by_scheme (resolver ["s3"; "gs"]) c.1 c.2 st).2)
       (mkState [] 3 {[ (0, "s3") := Client 2 ]})
       [(mkSelf 0 ∅, "gs"); (mkSelf 1 ∅, "s3"); (mkSelf 0 ∅, "abfs")])
  = (Ok (Client 2),
     foldl (fun st c =>
              (backend_fs_by_scheme (resolver ["s3"; "gs"]) c.1 c.2 st).2)
       (mkState [] 3 {[ (0, "s3") := Client 2 ]})
       [(mkSelf 0 ∅, "gs"); (mkSelf 1 ∅, "s3"); (mkSelf 0 ∅, "abfs")]).
Proof.
  apply (fs_by_scheme_entries_persist (resolver ["s3"; "gs"])
           [(mkSelf 0 ∅, "gs"); (mkSelf 1 ∅, "s3"); (mkSelf 0 ∅, "abfs")]
           (mkSelf 0 ∅) "s3" (mkState [] 2 ∅)).
  - apply resolver_memo_preserving.
  - reflexivity.
Defined.

Lemma fs_by_uri_same_scheme_same_client_witness :
  fs_by_uri (mkFileIO (@PyArrowFileIO parsing_backends) (mkSelf 0 ∅))
    "s3://other-bucket/b.parquet"
    (mkState [] 2 {[ (0, "s3") := Client 1 ]})
  = (Ok (Client 1), mkState [] 2 {[ (0, "s3") := Client 1 ]}).
Proof.
  apply (fs_by_uri_same_scheme_same_client
           (mkFileIO (@PyArrowFileIO parsing_backends) (mkSelf 0 ∅))
           (@parse_location posix_env) (resolver ["file"; "s3"; "hdfs"])
           "s3://bucket/a.parquet" "s3://other-bucket/b.parquet"
           "s3" "bucket" "bucket/a.parquet" "other-bucket"
           "other-bucket/b.parquet" (mkState [] 1 ∅));
    reflexivity.
Defined.

(** * Further properties of backend selection *)

Section SelectorMore.
Context `{Backends}.

(** X10: the parser never raises.  It returns [None] or one of the two
    canonical identifiers, adds at most one warning and changes nothing
    else; applied to an identifier it has returned, it returns that
    identifier again and stays silent. *)
Theorem parser_normalises (v : string) (s : state) :
  exists (r : option string) (w : list string),
    _py_io_impl_argument_parser v s
      = (Ok r, mkState (warnings s ++ w) (next_id s) (memo s))
    /\ List.length w <= 1
    /\ (r = None \/ r = Some FSSPEC \/ r = Some PYARROW)
    /\ forall c s', r = Some c ->
         _py_io_impl_argument_parser c s' = (Ok (Some c), s').
Proof.
  assert (Hcanon : forall c s',
    c = FSSPEC \/ c = PYARROW ->
    _py_io_impl_argument_parser c s' = (Ok (Some c), s')).
  { intros c s' Hc. apply parser_canonical. exact Hc. }
  destruct (decide (v = FSSPEC)) as [-> | H1].
  { exists (Some FSSPEC), []. rewrite app_nil_r, state_eta.
    split; [reflexivity | split; [simpl; lia | split; [auto |]]].
    intros c s' [= <-]. auto. }
  destruct (decide (v = PYARROW)) as [-> | H2].
  { exists (Some PYARROW), []. rewrite app_nil_r, state_eta.
    split; [reflexivity | split; [simpl; lia | split; [auto |]]].
    intros c s' [= <-]. auto. }
  destruct (decide (v = FSSPEC_FILE_IO)) as [-> | H3].
  { exists (Some FSSPEC), [fsspec_deprecation].
    split; [reflexivity | split; [simpl; lia | split; [auto |]]].
    intros c s' [= <-]. auto. }
  destruct (decide (v = ARROW_FILE_IO)) as [-> | H4].
  { exists (Some PYARROW), [pyarrow_deprecation].
    split; [reflexivity | split; [simpl; lia | split; [auto |]]].
    intros c s' [= <-]. auto. }
  exists None, []. rewrite app_nil_r, state_eta.
  split; [apply parser_unknown; assumption |].
  split; [simpl; lia | split; [auto | discriminate]].
Qed.

(** X11: without a location, selection raises nothing for any property
    bag.  It constructs one object, of [PyArrowFileIO] or [FsspecFileIO],
    which holds the property bag as it was given; the only warning is the
    deprecation warning of the parser, and the memo is left alone. *)
Theorem load_file_io_without_location (props : gmap string string)
    (s : state) :
  exists cls,
    (cls = PyArrowFileIO \/ cls = FsspecFileIO)
    /\ load_file_io props None s =
         (Ok (mkFileIO cls (mkSelf (next_id s) props)),
          mkState (warnings s ++ deprecation_warnings props)
            (S (next_id s)) (memo s)).
Proof.
  destruct (parser_returns props s) as [impl Hp].
  exists (primary impl). split.
  - unfold primary. destruct (bool_decide _); auto.
  - rewrite load_file_io_no_location, (bind_ok _ _ _ _ _ Hp). reflexivity.
Qed.

(** X12: a property bag without the key [py-io-impl] selects
    [PyArrowFileIO], silently. *)
Theorem absent_key_selects_pyarrow (props : gmap string string) (s : state) :
  props !! PY_IO_IMPL = None ->
  load_file_io props None s =
    (Ok (mkFileIO PyArrowFileIO (mkSelf (next_id s) props)),
     mkState (warnings s) (S (next_id s)) (memo s)).
Proof.
  intros Hk. rewrite load_file_io_no_location, Hk. reflexivity.
Qed.

(** X13: each canonical identifier selects its backend without a
    warning. *)
Theorem canonical_values_select_silently (props : gmap string string)
    (s : state) :
  load_file_io (<[PY_IO_IMPL := FSSPEC]> props) None s =
    (Ok (mkFileIO FsspecFileIO
           (mkSelf (next_id s) (<[PY_IO_IMPL := FSSPEC]> props))),
     mkState (warnings s) (S (next_id s)) (memo s))
  /\ load_file_io (<[PY_IO_IMPL := PYARROW]> props) None s =
       (Ok (mkFileIO PyArrowFileIO
              (mkSelf (next_id s) (<[PY_IO_IMPL := PYARROW]> props))),
        mkState (warnings s) (S (next_id s)) (memo s)).
Proof.
  split; rewrite load_file_io_no_location, lookup_insert_eq; reflexivity.
Qed.

(** The test of the fallback is false when the probe returns anything but
    [None], and raises what the probe raises. *)
Lemma probe_supported (file_io : FileIO) (location : string) (s s2 : state)
    (fs : filesystem) :
  location ≠ "" -> fs ≠ PyNone ->
  fs_by_uri file_io location s = (Ok fs, s2) ->
  location_and_unsupported (Some location) file_io s = (Ok false, s2).
Proof.
  intros Hloc Hfs Hprobe.
  destruct location as [| c location]; [congruence |].
  unfold location_and_unsupported.
  rewrite (bind_ok _ _ _ _ _ Hprobe). unfold mret, M_ret.
  rewrite bool_decide_eq_false_2 by exact Hfs. reflexivity.
Qed.

Lemma probe_raises (file_io : FileIO) (location : string) (s s2 : state)
    (e : exn) :
  location ≠ "" ->
  fs_by_uri file_io location s = (Raise e, s2) ->
  location_and_unsupported (Some location) file_io s = (Raise e, s2).
Proof.
  intros Hloc Hprobe.
  destruct location as [| c location]; [congruence |].
  unfold location_and_unsupported.
  apply bind_raise. exact Hprobe.
Qed.

(** What [load_file_io] does once the first instance is built and the test
    of the fallback has an outcome. *)
Lemma load_file_io_after_probe (props : gmap string string)
    (location : option string) (impl : option string) (s s0 s2 : state)
    (r : result bool) :
  _py_io_impl_argument_parser
    (default DEFAULT_PY_IO_IMPL (props !! PY_IO_IMPL)) s = (Ok impl, s0) ->
  location_and_unsupported location
    (mkFileIO (primary impl) (mkSelf (next_id s0) props))
    (mkState (warnings s0) (S (next_id s0)) (memo s0)) = (r, s2) ->
  load_file_io props location s =
    match r with
    | Ok true =>
        (Ok (mkFileIO (alternate impl) (mkSelf (next_id s2) props)),
         mkState (warnings s2 ++ [fallback_warning impl location])
           (S (next_id s2)) (memo s2))
    | Ok false =>
        (Ok (mkFileIO (primary impl) (mkSelf (next_id s0) props)), s2)
    | Raise e => (Raise e, s2)
    end.
Proof.
  intros Hparse Hprobe.
  unfold load_file_io, primary, alternate, fallback_warning in *.
  rewrite (bind_ok _ _ _ _ _ Hparse).
  destruct (bool_decide (impl = Some PYARROW));
    rewrite (bind_ok _ _ _ _ _ (new_run _ props s0));
    (destruct r as [[|] | e];
     [ rewrite (bind_ok _ _ _ _ _ Hprobe)
     | rewrite (bind_ok _ _ _ _ _ Hprobe)
     | rewrite (bind_raise _ _ _ _ _ Hprobe) ]);
    reflexivity.
Qed.

(** X14: when the probe of the first instance returns a client, or any
    object other than [None], that instance is returned: no fallback
    warning, no second object, and the final state is the state after the
    probe. *)
Theorem supported_location_keeps_primary (props : gmap string string)
    (location : string) (impl : option string) (s s0 s2 : state)
    (fs : filesystem) :
  location ≠ "" -> fs ≠ PyNone ->
  _py_io_impl_argument_parser
    (default DEFAULT_PY_IO_IMPL (props !! PY_IO_IMPL)) s = (Ok impl, s0) ->
  fs_by_uri (mkFileIO (primary impl) (mkSelf (next_id s0) props)) location
    (mkState (warnings s0) (S (next_id s0)) (memo s0)) = (Ok fs, s2) ->
  load_file_io props (Some location) s =
    (Ok (mkFileIO (primary impl) (mkSelf (next_id s0) props)), s2).
Proof.
  intros Hloc Hfs Hparse Hprobe.
  exact (load_file_io_after_probe _ _ _ _ _ _ _ Hparse
           (probe_supported _ _ _ _ _ Hloc Hfs Hprobe)).
Qed.

(** X15: an exception of the probe is not a reason to fall back: it leaves
    [load_file_io] as it is, no warning is added and the other backend is
    not constructed. *)
Theorem probe_exception_propagates (props : gmap string string)
    (location : string) (impl : option string) (s s0 s2 : state) (e : exn) :
  location ≠ "" ->
  _py_io_impl_argument_parser
    (default DEFAULT_PY_IO_IMPL (props !! PY_IO_IMPL)) s = (Ok impl, s0) ->
  fs_by_uri (mkFileIO (primary impl) (mkSelf (next_id s0) props)) location
    (mkState (warnings s0) (S (next_id s0)) (memo s0)) = (Raise e, s2) ->
  load_file_io props (Some location) s = (Raise e, s2).
Proof.
  intros Hloc Hparse Hprobe.
  exact (load_file_io_after_probe _ _ _ _ _ _ _ Hparse
           (probe_raises _ _ _ _ _ Hloc Hprobe)).
Qed.

(** X16: when neither backend class brings a [parse_uri], [load_file_io]
    raises [AttributeError] for every non-empty location and every property
    bag, after the deprecation warning if there is one. *)
Theorem load_file_io_without_parse_uri (props : gmap string string)
    (location : string) (s : state) :
  cls_parse_uri PyArrowFileIO = None ->
  cls_parse_uri FsspecFileIO = None ->
  location ≠ "" ->
  exists msg,
    load_file_io props (Some location) s =
      (Raise (AttributeError msg),
       mkState (warnings s ++ deprecation_warnings props)
         (S (next_id s)) (memo s)).
Proof.
  intros Hpa Hfs Hloc.
  destruct (parser_returns props s) as [impl Hp].
  exists ("'" +:+ cls_name (primary impl)
          +:+ "' object has no attribute 'parse_uri'").
  refine (load_file_io_after_probe _ _ _ _ _ _ _ Hp
            (probe_raises _ _ _ _ _ Hloc _)).
  assert (Hnone : cls_parse_uri (primary impl) = None).
  { unfold primary. destruct (bool_decide (impl = Some PYARROW)); assumption. }
  unfold fs_by_uri. simpl. rewrite Hnone. reflexivity.
Qed.

(** X17: when both backend classes parse with [parse_location], a location
    that starts with a slash, such as an absolute local path, makes
    [load_file_io] raise for every property bag; nothing is resolved and no
    fallback is tried. *)
Theorem load_file_io_local_path_raises `{PyEnv} (props : gmap string string)
    (rest : string) (s : state) :
  cls_parse_uri PyArrowFileIO = Some (fun _ uri => lift (parse_location uri)) ->
  cls_parse_uri FsspecFileIO = Some (fun _ uri => lift (parse_location uri)) ->
  exists e,
    load_file_io props (Some (String "/" rest)) s =
      (Raise e,
       mkState (warnings s ++ deprecation_warnings props)
         (S (next_id s)) (memo s)).
Proof.
  intros Hpa Hfs.
  destruct (parser_returns props s) as [impl Hp].
  set (s1 := mkState (warnings s ++ deprecation_warnings props)
               (S (next_id s)) (memo s)).
  assert (Hraise : exists e,
    fs_by_uri (mkFileIO (primary impl) (mkSelf (next_id s) props))
      (String "/" rest) s1 = (Raise e, s1)).
  { apply fs_by_uri_slash_raises. unfold primary. simpl.
    destruct (bool_decide (impl = Some PYARROW)); assumption. }
  destruct Hraise as [e He]. exists e.
  refine (load_file_io_after_probe _ _ _ _ _ _ _ Hp
            (probe_raises _ _ _ _ _ _ He)).
  discriminate.
Qed.

(** X18: whatever the location, an instance that [load_file_io] returns
    belongs to one of the two backend classes and holds the property bag it
    was called with, unchanged. *)
Theorem load_file_io_result (props : gmap string string)
    (location : option string) (s s' : state) (file_io : FileIO) :
  load_file_io props location s = (Ok file_io, s') ->
  properties (self file_io) = props
  /\ (class_of file_io = PyArrowFileIO \/ class_of file_io = FsspecFileIO).
Proof.
  destruct (parser_returns props s) as [impl Hp].
  destruct (location_and_unsupported location
              (mkFileIO (primary impl) (mkSelf (next_id s) props))
              (mkState (warnings s ++ deprecation_warnings props)
                 (S (next_id s)) (memo s))) as [r s2] eqn:Hprobe.
  rewrite (load_file_io_after_probe _ _ _ _ _ _ _ Hp Hprobe).
  unfold primary, alternate.
  destruct r as [[|] | e]; [| | discriminate];
    intros [= <- _]; simpl; (split; [reflexivity |]);
    destruct (bool_decide (impl = Some PYARROW)); auto.
Qed.

End SelectorMore.

Lemma absent_key_selects_pyarrow_witness :
  @load_file_io plain_backends ∅ None initial_state =
    (Ok (mkFileIO (@PyArrowFileIO plain_backends) (mkSelf 0 ∅)),
     mkState [] 1 ∅).
Proof.
  apply (@absent_key_selects_pyarrow plain_backends ∅ initial_state).
  reflexivity.
Defined.

Lemma supported_location_keeps_primary_witness :
  @load_file_io parsing_backends ∅ (Some "s3://bucket/key") initial_state =
    (Ok (mkFileIO (@PyArrowFileIO parsing_backends) (mkSelf 0 ∅)),
     mkState [] 2 {[ (0, "s3") := Client 1 ]}).
Proof.
  apply (@supported_location_keeps_primary parsing_backends ∅
           "s3://bucket/key" (Some PYARROW) initial_state initial_state
           (mkState [] 2 {[ (0, "s3") := Client 1 ]}) (Client 1));
    [discriminate | discriminate | reflexivity | reflexivity].
Defined.

Lemma probe_exception_propagates_witness :
  @load_file_io parsing_backends ∅ (Some "warehouse/t") initial_state =
    (Raise (TypeError "expected str, bytes or os.PathLike object, not ParseResult"),
     mkState [] 1 ∅).
Proof.
  apply (@probe_exception_propagates parsing_backends ∅ "warehouse/t"
           (Some PYARROW) initial_state initial_state);
    [discriminate | reflexivity | reflexivity].
Defined.

Lemma load_file_io_without_parse_uri_witness :
  exists msg,
    @load_file_io plain_backends deprecated_props (Some "s3://bucket/key")
      initial_state =
      (Raise (AttributeError msg), mkState [pyarrow_deprecation] 1 ∅).
Proof.
  apply (@load_file_io_without_parse_uri plain_backends deprecated_props
           "s3://bucket/key" initial_state);
    [reflexivity | reflexivity | discriminate].
Defined.

Lemma load_file_io_local_path_raises_witness :
  exists e,
    @load_file_io parsing_backends ∅ (Some "/tmp/warehouse/t") initial_state =
      (Raise e, mkState [] 1 ∅).
Proof.
  exact (@load_file_io_local_path_raises parsing_backends posix_env ∅
           "tmp/warehouse/t" initial_state eq_refl eq_refl).
Defined.

Lemma load_file_io_result_witness :
  properties (self (mkFileIO (@FsspecFileIO parsing_backends)
                      (mkSelf 1 deprecated_props))) = deprecated_props
  /\ (class_of (mkFileIO (@FsspecFileIO parsing_backends)
                  (mkSelf 1 deprecated_props)) = @PyArrowFileIO parsing_backends
      \/ class_of (mkFileIO (@FsspecFileIO parsing_backends)
                     (mkSelf 1 deprecated_props)) = @FsspecFileIO parsing_backends).
Proof.
  apply (@load_file_io_result parsing_backends deprecated_props
           (Some "abfs://container/t") initial_state
           (mkState
              [pyarrow_deprecation; pyarrow_fallback (Some "abfs://container/t")]
              2 {[ (0, "abfs") := PyNone ]})).
  reflexivity.
Defined.

Lemma FileIO_fs_by_scheme_abstract_witness :
  FileIO_fs_by_scheme (mkSelf 0 ∅) "s3" (mkState [] 1 ∅)
    = (Ok NotImplemented, mkState [] 1 {[ (0, "s3") := NotImplemented ]})
  /\ FileIO_fs_by_scheme (mkSelf 0 ∅) "s3"
       (mkState [] 1 {[ (0, "s3") := NotImplemented ]})
     = (Ok NotImplemented, mkState [] 1 {[ (0, "s3") := NotImplemented ]}).
Proof.
  apply (FileIO_fs_by_scheme_abstract (mkSelf 0 ∅) "s3" (mkState [] 1 ∅)).
  reflexivity.
Defined.
